(** * Moodle scraper: download cache, filename inference and course sync

    A shallow embedding of [main.py]: the name sanitizer
    ([ResourceDownloader._clean_name]), the persisted download history
    ([_load_history], [_save_history]), the fetcher ([get_file]) and the
    course walk ([CourseManager.run]).

    Conventions of the model.
    - A Python [str] is a [string]; a character is a code point below 256,
      so [str.lower], [str.strip] and the regular expression class [\s] are
      the tables Python uses on that range.
    - Paths follow the POSIX [os.path.join]; [os.sep] is ["/"].
    - The outside world (remote server, HTML parser, local disk errors) is a
      record of deterministic oracles, [World].
    - Effects are threaded through a state-and-exception monad [M]; a raised
      exception keeps the state reached so far, as in Python.
    - The disk is a map from paths to contents.  Directories are not
      tracked: [os.makedirs] is taken to succeed.  A write can succeed, be
      refused when the file is opened, or break after the file was opened
      and so created or emptied; the oracle [on_write] says which.
    - [self.history] is whatever [json.load] gave: a dict, or another JSON
      value.  Of a value that is not a string the program can only see
      whether it is truthy, so that is all the model keeps of it.
    - Lines printed to the terminal are left out, and with them [is_new] and
      [section_updated], which feed nothing else. *)

From Stdlib Require Import String Ascii NArith List Bool.
From stdpp Require Import gmap strings list fin_maps.

Local Open Scope string_scope.
Local Open Scope N_scope.

(** ** Characters and strings *)

Module Str.

(** [str.isspace] on code points below 256 (also what [\s] matches). *)
Definition is_space (c : ascii) : bool :=
  let n := N_of_ascii c in
  ((9 <=? n) && (n <=? 13)) || ((28 <=? n) && (n <=? 32))
  || (n =? 133) || (n =? 160).

(** [str.lower] on one code point below 256: [A-Z] and the Latin-1 capitals
    [0xC0-0xDE] except the multiplication sign [0xD7] move up by 32. *)
Definition lower_char (c : ascii) : ascii :=
  let n := N_of_ascii c in
  if ((65 <=? n) && (n <=? 90))
     || ((192 <=? n) && (n <=? 222) && negb (n =? 215))
  then ascii_of_N (n + 32) else c.

Fixpoint lower (s : string) : string :=
  match s with
  | EmptyString => EmptyString
  | String c r => String (lower_char c) (lower r)
  end.

Fixpoint lstrip (s : string) : string :=
  match s with
  | EmptyString => EmptyString
  | String c r => if is_space c then lstrip r else s
  end.

Fixpoint rstrip (s : string) : string :=
  match s with
  | EmptyString => EmptyString
  | String c r =>
      match rstrip r with
      | EmptyString => if is_space c then EmptyString else String c EmptyString
      | r' => String c r'
      end
  end.

(** [str.strip()] *)
Definition strip (s : string) : string := rstrip (lstrip s).

(** [sub in s] *)
Fixpoint contains (sub s : string) : bool :=
  String.prefix sub s ||
  match s with
  | EmptyString => false
  | String _ r => contains sub r
  end.

(** [strip_suffix w s = Some p] exactly when [s = p ++ w]. *)
Fixpoint strip_suffix (w s : string) : option string :=
  if String.eqb s w then Some EmptyString
  else match s with
       | EmptyString => None
       | String c r => String c <$> strip_suffix w r
       end.

(** [s.endswith(w)] *)
Definition endswith (s w : string) : bool :=
  match strip_suffix w s with Some _ => true | None => false end.

(** [s.replace(old, '')] for a non-empty [old]: every non-overlapping
    occurrence, scanning from the left, is dropped. *)
Fixpoint remove_all_from (fuel : nat) (old s : string) : string :=
  match fuel with
  | O => s
  | S fuel' =>
      if String.prefix old s
      then remove_all_from fuel' old
             (String.substring (String.length old)
                (String.length s - String.length old) s)
      else match s with
           | EmptyString => EmptyString
           | String c r => String c (remove_all_from fuel' old r)
           end
  end.

Definition remove_all (old s : string) : string :=
  remove_all_from (S (String.length s)) old s.

(** [join] of the lines with a newline between them. *)
Fixpoint join_lines (lines : list string) : string :=
  match lines with
  | [] => EmptyString
  | [l] => l
  | l :: rest => l +:+ String "010" (join_lines rest)
  end.

End Str.

(** ** Name sanitizer and filename inference *)

(** [re.sub(r'\s+', '_', text)]: every maximal run of whitespace becomes one
    underscore; [in_run] tells that the previous character was whitespace. *)
Fixpoint collapse_ws (in_run : bool) (s : string) : string :=
  match s with
  | EmptyString => EmptyString
  | String c r =>
      if Str.is_space c
      then (if in_run then collapse_ws true r
            else String "_" (collapse_ws true r))
      else String c (collapse_ws false r)
  end.

(** The nine characters of the class removed by the second [re.sub] of
    [_clean_name]: backslash, slash, star, question mark, colon, double
    quote, less-than, greater-than and vertical bar. *)
Definition illegal_chars : list ascii :=
  ["\"; "/"; "*"; "?"; ":"; "034"; "<"; ">"; "|"]%char.

Definition is_illegal (c : ascii) : bool :=
  existsb (Ascii.eqb c) illegal_chars.

(** The second [re.sub] of [_clean_name]: illegal characters are dropped. *)
Fixpoint remove_illegal (s : string) : string :=
  match s with
  | EmptyString => EmptyString
  | String c r =>
      if is_illegal c then remove_illegal r else String c (remove_illegal r)
  end.

(** [ResourceDownloader._clean_name] *)
Definition _clean_name (text : string) : string :=
  let text := Str.strip (Str.lower text) in
  let text := collapse_ws false text in
  remove_illegal text.

(** [re.sub(r'(File|URL|Folder)$', '', display_name)].  [$] matches at the
    end of the string and also just before a newline that ends it, so the
    word is removed in both positions; at most one match exists. *)
Definition kind_suffixes : list string := ["File"; "URL"; "Folder"].

Fixpoint strip_first_suffix (ws : list string) (s : string) : option string :=
  match ws with
  | [] => None
  | w :: ws' =>
      match Str.strip_suffix w s with
      | Some p => Some p
      | None => strip_first_suffix ws' s
      end
  end.

Definition strip_kind_suffix (display_name : string) : string :=
  match strip_first_suffix kind_suffixes display_name with
  | Some p => p
  | None =>
      match Str.strip_suffix (String "010" EmptyString) display_name with
      | Some body =>
          match strip_first_suffix kind_suffixes body with
          | Some p => p +:+ String "010" EmptyString
          | None => display_name
          end
      | None => display_name
      end
  end.

(** The [ext_map] literal of [get_file]. *)
Definition ext_map : list (string * string) :=
  [ ("application/pdf", ".pdf");
    ("application/vnd.openxmlformats-officedocument.wordprocessingml.document", ".docx");
    ("application/msword", ".doc");
    ("application/vnd.openxmlformats-officedocument.presentationml.presentation", ".pptx");
    ("application/vnd.ms-powerpoint", ".ppt");
    ("application/vnd.openxmlformats-officedocument.spreadsheetml.sheet", ".xlsx");
    ("application/vnd.ms-excel", ".xls");
    ("text/plain", ".txt");
    ("application/zip", ".zip") ].

(** [ext_map.get(ctype, '')] *)
Fixpoint ext_map_get (tbl : list (string * string)) (ctype : string) : string :=
  match tbl with
  | [] => EmptyString
  | (k, v) :: tbl' => if String.eqb k ctype then v else ext_map_get tbl' ctype
  end.

(** The list tested by [any(base_name.endswith(e) for e in [...])]. *)
Definition known_suffixes : list string :=
  [".pdf"; ".docx"; ".doc"; ".pptx"; ".ppt"; ".xlsx"; ".xls"; ".zip"].

Definition base_name_of (display_name : string) : string :=
  _clean_name (Str.strip (strip_kind_suffix display_name)).

(** Lines 82-101 of [get_file]: the file name under which a response with
    (lower-cased) content type [ctype] is stored. *)
Definition stored_filename (ctype display_name : string) : string :=
  let base_name := base_name_of display_name in
  let extension := ext_map_get ext_map ctype in
  if existsb (Str.endswith base_name) known_suffixes
  then base_name
  else base_name +:+ extension.

(** POSIX [os.path.join(a, b)]. *)
Definition path_join (a b : string) : string :=
  if String.prefix "/" b then b
  else if String.eqb a EmptyString || Str.endswith a "/" then a +:+ b
  else a +:+ "/" +:+ b.

(** ** The outside world, the program state and the effect monad *)

(** What [requests] hands back for a resource: the [Content-Type] header
    (absent headers are possible) and the body as [iter_content] delivers
    it.  The response is streamed: when [complete] is [false] the stream
    raises after [body] was delivered. *)
Record Response := {
  content_type : option string;
  body : string;
  complete : bool;
}.

(** A course-module record of the state document ([state['cm']]). *)
Record CourseModule := {
  cm_id : string;            (* [str(item['id'])] *)
  cm_name : string;          (* [item['name']] *)
  cm_module : string;        (* [item['module']] *)
  cm_url : option string;    (* [item['url']], a key that may be missing *)
}.

(** A section record ([state['section']]); [None] is a missing key. *)
Record Section := {
  sec_title : option string;
  sec_name : option string;
  sec_summary : option string;
  sec_cmlist : list string;  (* [str(cm_id)] for each listed id *)
}.

Record CourseState := {
  cm : list CourseModule;    (* [state.get('cm', [])] *)
  section : list Section;    (* [state.get('section', [])] *)
}.

(** A value stored in the history: a string, or any other JSON value, of
    which only the truthiness can be observed by the program. *)
Inductive jval :=
  | JStr (s : string)
  | JOther (truthy : bool).

(** [self.history] as [json.load] can produce it: a dict, a list, a string,
    or a scalar ([null], a boolean, a number). *)
Inductive pyhistory :=
  | HDict (m : gmap string jval)
  | HList (items : list jval)
  | HStr (s : string)
  | HScalar.

(** How a write to a path ends: the content is written; the file is opened,
    hence created or emptied, and the write raises with [partial] on the disk;
    or opening the file raises and the disk is untouched. *)
Inductive write_outcome :=
  | Written
  | Broken (partial : string)
  | Refused.

(** The environment of one run.  Every field is a deterministic oracle, so
    two runs in the same [World] see an unchanged remote state. *)
Record World := {
  (* GET of a resource URL (with [redirect=1] appended); [None]: it raises *)
  remote : string -> option Response;
  (* how [open(path, 'w')] and the writes that follow end *)
  on_write : string -> write_outcome;
  (* [json.load] on text that this program did not write; [None]: it raises *)
  json_loads : string -> option pyhistory;
  (* [BeautifulSoup(html, 'lxml').get_text(strip=True)] *)
  soup_text : string -> string;
  (* [BeautifulSoup(html, 'lxml').title.string]; [None]: attribute error *)
  soup_title : string -> option string;
  (* GET of the course page: [resp.text]; [None]: it raises *)
  course_page : string -> option string;
  (* [get_course_state(course_id, sesskey)] decoded by [json.loads] *)
  course_state : string -> string -> option CourseState;
}.

(** Content of a file on the local disk: raw text, or the JSON document
    that [json.dump] produces for a history value. *)
Inductive content :=
  | Raw (s : string)
  | HistoryJson (h : pyhistory).

(** Requests sent to the server, by the call site that sends them. *)
Inductive request :=
  | PageGet (url : string)
  | StatePost (course_id sesskey : string)
  | ResourceGet (target_url : string).

Inductive exn :=
  | NetworkError
  | IOError (path : string)
  | JSONDecodeError
  | KeyError (key : string)
  | TypeError
  | AttributeError.

(** [history] is [ResourceDownloader.history]; [fs] is the local disk.  The
    three logs record, oldest first, the requests sent, the paths of the
    resource bodies written in full, and the paths whose write raised. *)
Record State := {
  history : pyhistory;
  fs : gmap string content;
  requests : list request;
  downloads : list string;
  failures : list string;
}.

Definition set_history (h : pyhistory) (st : State) : State :=
  {| history := h; fs := fs st; requests := requests st;
     downloads := downloads st; failures := failures st |}.

Definition put_file (path : string) (c : content) (st : State) : State :=
  {| history := history st; fs := <[path := c]> (fs st);
     requests := requests st; downloads := downloads st;
     failures := failures st |}.

Definition with_requests (st : State) (rs : list request) : State :=
  {| history := history st; fs := fs st;
     requests := (requests st ++ rs)%list; downloads := downloads st;
     failures := failures st |}.

Definition log_download (path : string) (st : State) : State :=
  {| history := history st; fs := fs st; requests := requests st;
     downloads := (downloads st ++ [path])%list; failures := failures st |}.

Definition log_failure (path : string) (st : State) : State :=
  {| history := history st; fs := fs st; requests := requests st;
     downloads := downloads st; failures := (failures st ++ [path])%list |}.

Inductive result (A : Type) :=
  | Ok (a : A)
  | Raise (e : exn).
Arguments Ok {A} a.
Arguments Raise {A} e.

Definition M (A : Type) : Type := State -> result A * State.

Definition ret {A} (a : A) : M A := fun st => (Ok a, st).

Definition bind {A B} (m : M A) (k : A -> M B) : M B :=
  fun st => match m st with
            | (Ok a, st') => k a st'
            | (Raise e, st') => (Raise e, st')
            end.

Definition raise {A} (e : exn) : M A := fun st => (Raise e, st).

(** A pure operation that may raise. *)
Definition lift {A} (r : result A) : M A := fun st => (r, st).

(** [try: m except Exception: h] *)
Definition try_except {A} (m : M A) (h : exn -> M A) : M A :=
  fun st => match m st with
            | (Ok a, st') => (Ok a, st')
            | (Raise e, st') => h e st'
            end.

Notation "'let*' x := m 'in' k" := (bind m (fun x => k))
  (at level 10, x pattern, m at level 100, k at level 200).
Notation "m ;; k" := (bind m (fun _ => k))
  (at level 100, k at level 200, right associativity).

Definition get_history : M pyhistory := fun st => (Ok (history st), st).

Definition put_history (h : pyhistory) : M unit :=
  fun st => (Ok tt, set_history h st).

Definition send (r : request) : M unit :=
  fun st => (Ok tt, with_requests st [r]).

(** [with open(path, 'w') as f: f.write(c)] *)
Definition write_file (W : World) (path : string) (c : content) : M unit :=
  fun st =>
    match on_write W path with
    | Written => (Ok tt, put_file path c st)
    | Broken partial =>
        (Raise (IOError path), log_failure path (put_file path (Raw partial) st))
    | Refused => (Raise (IOError path), log_failure path st)
    end.

(** Lines 106-107: the file is opened, then the streamed body is written
    chunk by chunk; a stream that raises leaves what it had delivered. *)
Definition write_body (W : World) (path : string) (resp : Response) : M unit :=
  fun st =>
    match on_write W path with
    | Written =>
        if complete resp
        then (Ok tt, log_download path (put_file path (Raw (body resp)) st))
        else (Raise NetworkError,
              log_failure path (put_file path (Raw (body resp)) st))
    | Broken partial =>
        (Raise (IOError path), log_failure path (put_file path (Raw partial) st))
    | Refused => (Raise (IOError path), log_failure path st)
    end.

Fixpoint fold_m {A B} (f : B -> A -> M B) (l : list A) (b : B) : M B :=
  match l with
  | [] => ret b
  | x :: l' => let* b' := f b x in fold_m f l' b'
  end.

(** ** ResourceDownloader *)

Definition nl : string := String "010" EmptyString.
Definition quote : string := String "034" EmptyString.

Definition semester_dir : string := "Second Semester".

(** [self.index_file] *)
Definition index_file : string := path_join semester_dir "downloaded_index.json".

Definition jval_is_str (url : string) (v : jval) : bool :=
  match v with
  | JStr s => String.eqb s url
  | JOther _ => false
  end.

(** [url in self.history]: a key of a dict, an element of a list, a
    substring of a string; a scalar is not iterable. *)
Definition history_contains (h : pyhistory) (url : string) : result bool :=
  match h with
  | HDict m => Ok (match m !! url with Some _ => true | None => false end)
  | HList items => Ok (existsb (jval_is_str url) items)
  | HStr s => Ok (Str.contains url s)
  | HScalar => Raise TypeError
  end.

(** [self.history[url]]: lists and strings want an integer index. *)
Definition history_getitem (h : pyhistory) (url : string) : result jval :=
  match h with
  | HDict m => match m !! url with
               | Some v => Ok v
               | None => Raise (KeyError url)
               end
  | HList _ | HStr _ | HScalar => Raise TypeError
  end.

(** [self.history[url] = rel_path]: only a dict takes a string key. *)
Definition history_setitem (h : pyhistory) (url rel_path : string)
  : result pyhistory :=
  match h with
  | HDict m => Ok (HDict (<[url := JStr rel_path]> m))
  | HList _ | HStr _ | HScalar => Raise TypeError
  end.

(** [json.load(f)] on the content of a file. *)
Definition json_load (W : World) (c : content) : M pyhistory :=
  match c with
  | HistoryJson h => ret h
  | Raw s => match json_loads W s with
             | Some h => ret h
             | None => raise JSONDecodeError
             end
  end.

(** [ResourceDownloader._load_history] *)
Definition _load_history (W : World) : M pyhistory :=
  fun st =>
    match fs st !! index_file with
    | Some c => try_except (json_load W c) (fun _ => ret (HDict ∅)) st
    | None => ret (HDict ∅) st
    end.

(** [ResourceDownloader._save_history] *)
Definition _save_history (W : World) : M unit :=
  let* h := get_history in
  write_file W index_file (HistoryJson h).

(** [ResourceDownloader.__init__]: [self.history = self._load_history()] *)
Definition downloader_init (W : World) : M unit :=
  let* h := _load_history W in
  put_history h.

(** [url + ("&" if "?" in url else "?") + "redirect=1"] *)
Definition target_url (url : string) : string :=
  url +:+ (if Str.contains "?" url then "&" else "?") +:+ "redirect=1".

(** [resp.headers.get('Content-Type', '').lower()] *)
Definition ctype_of (resp : Response) : string :=
  Str.lower (default EmptyString (content_type resp)).

(** The body of the [try] block of [get_file] (lines 77-112). *)
Definition download (W : World) (subject_path url folder_name display_name : string)
  : M (option jval) :=
  send (ResourceGet (target_url url));;
  match remote W (target_url url) with
  | None => raise NetworkError
  | Some resp =>
      let ctype := ctype_of resp in
      if Str.contains "text/html" ctype then ret None
      else
        let filename := stored_filename ctype display_name in
        let rel_path := path_join folder_name filename in
        let full_path := path_join subject_path rel_path in
        write_body W full_path resp;;
        let* h := get_history in
        let* h' := lift (history_setitem h url rel_path) in
        put_history h';;
        _save_history W;;
        ret (Some (JStr rel_path))
  end.

(** [ResourceDownloader.get_file]; [None] is Python's [None].  The test of
    line 73 and the lookup of line 75 stand outside the [try]. *)
Definition get_file (W : World) (subject_path url folder_name display_name : string)
  : M (option jval) :=
  let* h := get_history in
  let* present := lift (history_contains h url) in
  if present
  then let* v := lift (history_getitem h url) in ret (Some v)
  else try_except (download W subject_path url folder_name display_name)
                  (fun _ => ret None).
(** ** CourseManager *)

(** Longest prefix whose characters satisfy [p], and the rest. *)
Fixpoint span (p : ascii -> bool) (s : string) : string * string :=
  match s with
  | EmptyString => (EmptyString, EmptyString)
  | String c r =>
      if p c then let '(g, rest) := span p r in (String c g, rest)
      else (EmptyString, s)
  end.

Fixpoint drop_chars (n : nat) (s : string) : string :=
  match n, s with
  | O, _ => s
  | S n', String _ r => drop_chars n' r
  | S _, EmptyString => EmptyString
  end.

(** [re.search(...)]: the first position at which [at_pos] matches. *)
Fixpoint re_search (at_pos : string -> option string) (s : string) : option string :=
  match at_pos s with
  | Some g => Some g
  | None => match s with
            | EmptyString => None
            | String _ r => re_search at_pos r
            end
  end.

Definition is_digit (c : ascii) : bool :=
  let n := N_of_ascii c in (48 <=? n) && (n <=? 57).

(** The pattern of line 135, anchored at the start of [s]: the literal
    [sesskey] key, then a non-empty greedy run of non-quote characters
    (group 1), then a closing quote. *)
Definition sesskey_at (s : string) : option string :=
  let lit := quote +:+ "sesskey" +:+ quote +:+ ":" +:+ quote in
  if String.prefix lit s then
    let '(g, rest) := span (fun c => negb (Ascii.eqb c "034")) (drop_chars (String.length lit) s) in
    if negb (String.eqb g EmptyString) && String.prefix quote rest then Some g else None
  else None.

(** The pattern of line 136, anchored at the start of [s]: the literal
    [courseId] key, then a non-empty greedy run of digits (group 1). *)
Definition course_id_at (s : string) : option string :=
  let lit := quote +:+ "courseId" +:+ quote +:+ ":" in
  if String.prefix lit s then
    let '(g, _) := span is_digit (drop_chars (String.length lit) s) in
    if negb (String.eqb g EmptyString) then Some g else None
  else None.

(** [re.search(pattern, text).group(1)]: no match means [None.group]. *)
Definition group1 (found : option string) : M string :=
  match found with
  | Some g => ret g
  | None => raise AttributeError
  end.

(** Python truthiness of [d.get(key)] for a string value. *)
Definition truthy (v : option string) : bool :=
  match v with
  | Some s => negb (String.eqb s EmptyString)
  | None => false
  end.

(** [sec.get('title') or sec.get('name') or "General"] *)
Definition raw_name_of (sec : Section) : string :=
  if truthy (sec_title sec) then default EmptyString (sec_title sec)
  else if truthy (sec_name sec) then default EmptyString (sec_name sec)
  else "General".

(** [{str(item['id']): item for item in state.get('cm', [])}] *)
Definition build_cm_map (items : list CourseModule) : gmap string CourseModule :=
  foldl (fun m item => <[cm_id item := item]> m) ∅ items.

(** What is written to a section's [context.txt]. *)
Definition context_text (W : World) (sec : Section) : string :=
  "SECTION: " +:+ raw_name_of sec +:+ nl +:+
  (if truthy (sec_summary sec)
   then nl +:+ "[SUMMARY]" +:+ nl
        +:+ soup_text W (default EmptyString (sec_summary sec)) +:+ nl
   else EmptyString).

Definition local_link (local_rel clean_title : string) : string :=
  "* [[" +:+ local_rel +:+ "|" +:+ clean_title +:+ "]]".

Definition remote_link (clean_title url : string) : string :=
  "* [" +:+ clean_title +:+ "](" +:+ url +:+ ")".

(** Python truthiness of what [get_file] returned. *)
Definition truthy_value (v : option jval) : bool :=
  match v with
  | Some (JStr s) => negb (String.eqb s EmptyString)
  | Some (JOther b) => b
  | None => false
  end.

(** [local_rel.replace(os.sep, '/')]: the identity on a string under POSIX;
    no other value has a [replace] method. *)
Definition replace_sep (v : option jval) : result string :=
  match v with
  | Some (JStr s) => Ok s
  | Some (JOther _) | None => Raise AttributeError
  end.

(** One iteration of the inner loop of [run] (lines 165-175);
    [readme_content] is threaded through.  The membership test of line 170
    is kept because it can raise. *)
Definition sync_module (W : World) (subject_dir folder_name : string)
    (cm_map : gmap string CourseModule)
    (readme_content : list string) (cm_id : string) : M (list string) :=
  match cm_map !! cm_id with
  | None => ret readme_content
  | Some item =>
      let clean_title := soup_text W (cm_name item) in
      if String.eqb (cm_module item) "resource" then
        match cm_url item with
        | None => raise (KeyError "url")
        | Some url =>
            let* h := get_history in
            let* _ := lift (history_contains h url) in
            let* local_rel := get_file W subject_dir url folder_name (cm_name item) in
            if truthy_value local_rel
            then let* shown := lift (replace_sep local_rel) in
                 ret (readme_content ++ [local_link shown clean_title])%list
            else ret readme_content
        end
      else
        ret (readme_content ++ [remote_link clean_title (default "#" (cm_url item))])%list
  end.

(** One iteration of the outer loop of [run] (lines 148-175). *)
Definition sync_section (W : World) (subject_dir : string)
    (cm_map : gmap string CourseModule)
    (readme_content : list string) (sec : Section) : M (list string) :=
  let raw_name := raw_name_of sec in
  let folder_name := _clean_name raw_name in
  let folder_path := path_join subject_dir folder_name in
  write_file W (path_join folder_path "context.txt") (Raw (context_text W sec));;
  fold_m (sync_module W subject_dir folder_name cm_map) (sec_cmlist sec)
         (readme_content ++ [nl +:+ "## " +:+ raw_name])%list.

Definition readme_header (course_title course_url : string) : list string :=
  [ "# " +:+ course_title;
    nl +:+ "[Moodle Link](" +:+ course_url +:+ ")";
    "[[class_notes/|Class Notes]]" +:+ nl;
    "---" ].

(** Lines 140-177 of [run]: the walk over the course state. *)
Definition sync (W : World) (subject_dir course_title course_url : string)
    (state : CourseState) : M (list string) :=
  let cm_map := build_cm_map (cm state) in
  fold_m (sync_section W subject_dir cm_map) (section state)
         (readme_header course_title course_url).

(** [self.clean_subject] *)
Definition clean_subject (subject_name : string) : string :=
  collapse_ws false (Str.strip (Str.lower subject_name)).

Definition subject_dir_of (subject_name : string) : string :=
  path_join semester_dir (clean_subject subject_name).

Definition readme_path (subject_name : string) : string :=
  path_join (subject_dir_of subject_name) "README.md".

(** [CourseManager.run] *)
Definition run (W : World) (course_url subject_name : string) : M unit :=
  send (PageGet course_url);;
  match course_page W course_url with
  | None => raise NetworkError
  | Some text =>
      if Str.contains "Kirjaudu" text then ret tt
      else
        let* sesskey := group1 (re_search sesskey_at text) in
        let* course_id := group1 (re_search course_id_at text) in
        let* title := group1 (soup_title W text) in
        let course_title := Str.remove_all " | TUNI Moodle" title in
        send (StatePost course_id sesskey);;
        match course_state W course_id sesskey with
        | None => raise NetworkError
        | Some state =>
            let* readme_content :=
              sync W (subject_dir_of subject_name) course_title course_url state in
            write_file W (readme_path subject_name)
                       (Raw (Str.join_lines readme_content))
        end
  end.

(** [CourseManager(url, cookie, subject).run()] in a fresh process whose
    disk is [disk]: the history is loaded first, then the course is walked. *)
Definition initial_state (disk : gmap string content) : State :=
  {| history := HDict ∅; fs := disk; requests := []; downloads := [];
     failures := [] |}.

Definition main (W : World) (course_url subject_name : string)
    (disk : gmap string content) : result unit * State :=
  (downloader_init W;; run W course_url subject_name) (initial_state disk).

(** ** Character predicates used to describe sanitized names *)

Fixpoint all_chars (p : ascii -> bool) (s : string) : bool :=
  match s with
  | EmptyString => true
  | String c r => p c && all_chars p r
  end.

Definition is_lowered (c : ascii) : bool := Ascii.eqb (Str.lower_char c) c.
Definition not_space (c : ascii) : bool := negb (Str.is_space c).
Definition is_legal (c : ascii) : bool := negb (is_illegal c).

(** The characters of a session key: anything but the double quote. *)
Definition not_quote (c : ascii) : bool := negb (Ascii.eqb c "034").

(** The last character of a string, if it has one. *)
Fixpoint last_char (s : string) : option ascii :=
  match s with
  | EmptyString => None
  | String c r => match last_char r with
                  | None => Some c
                  | Some d => Some d
                  end
  end.

(** ** Small courses used to exercise the model

    The server knows four resources: [u1] answers with an HTML page, [u2]
    with an unrecognised binary type, [u3] with a PDF, and the stream of
    [u4] breaks after four characters. *)

Definition demo_remote (target : string) : option Response :=
  if String.eqb target "http://m/u1?redirect=1"
  then Some {| content_type := Some "Text/HTML; charset=utf-8";
               body := "<html>"; complete := true |}
  else if String.eqb target "http://m/u2?redirect=1"
  then Some {| content_type := Some "application/octet-stream";
               body := "DATA"; complete := true |}
  else if String.eqb target "http://m/u3?redirect=1"
  then Some {| content_type := Some "application/pdf";
               body := "%PDF"; complete := true |}
  else if String.eqb target "http://m/u4?redirect=1"
  then Some {| content_type := Some "application/zip";
               body := "PK.."; complete := false |}
  else None.

Definition demo_page : string :=
  quote +:+ "sesskey" +:+ quote +:+ ":" +:+ quote +:+ "abc" +:+ quote +:+ ","
  +:+ quote +:+ "courseId" +:+ quote +:+ ":42}".

(** A course in which the module named [File] has an empty file name, and
    the module after it has the same URL. *)
Definition demo_course : CourseState :=
  {| cm := [ {| cm_id := "1"; cm_name := "page"; cm_module := "resource";
                cm_url := Some "http://m/u1" |};
             {| cm_id := "2"; cm_name := "File"; cm_module := "resource";
                cm_url := Some "http://m/u2" |};
             {| cm_id := "3"; cm_name := "notes"; cm_module := "resource";
                cm_url := Some "http://m/u2" |};
             {| cm_id := "4"; cm_name := "forum"; cm_module := "forum";
                cm_url := None |} ];
     section := [ {| sec_title := Some "S"; sec_name := None;
                     sec_summary := None;
                     sec_cmlist := ["1"; "2"; "3"; "4"; "9"] |} ] |}.

(** A course in which every file has a name. *)
Definition tidy_course : CourseState :=
  {| cm := [ {| cm_id := "1"; cm_name := "page"; cm_module := "resource";
                cm_url := Some "http://m/u1" |};
             {| cm_id := "2"; cm_name := "data"; cm_module := "resource";
                cm_url := Some "http://m/u2" |};
             {| cm_id := "3"; cm_name := "Lecture Notes File";
                cm_module := "resource"; cm_url := Some "http://m/u3" |};
             {| cm_id := "4"; cm_name := "forum"; cm_module := "forum";
                cm_url := None |} ];
     section := [ {| sec_title := Some "Week 1"; sec_name := None;
                     sec_summary := Some "<p>Start</p>";
                     sec_cmlist := ["1"; "2"; "4"] |};
                  {| sec_title := None; sec_name := Some "Week 2";
                     sec_summary := None;
                     sec_cmlist := ["3"; "2"; "9"] |} ] |}.

(** The only foreign text that parses as JSON here is the empty list. *)
Definition demo_json (s : string) : option pyhistory :=
  if String.eqb s "[]" then Some (HList []) else None.

Definition demo_world (disk : string -> write_outcome) (state : CourseState)
  : World :=
  {| remote := demo_remote;
     on_write := disk;
     json_loads := demo_json;
     soup_text := fun s => s;
     soup_title := fun _ => Some "Course | TUNI Moodle";
     course_page := fun _ => Some demo_page;
     course_state := fun _ _ => Some state |}.

(** A disk that refuses to open a directory and writes everything else; one
    that moreover cannot open the history file; one on which the write of
    the history file breaks after the file was emptied; one on which the
    write of a resource breaks after two characters. *)
Definition healthy_disk (p : string) : write_outcome :=
  if Str.endswith p "/" then Refused else Written.

Definition read_only_index (p : string) : write_outcome :=
  if String.eqb p index_file then Refused else healthy_disk p.

Definition torn_index (p : string) : write_outcome :=
  if String.eqb p index_file then Broken EmptyString else healthy_disk p.

Definition full_disk (p : string) : write_outcome :=
  if String.eqb p "Second Semester/subj/s/lecture_notes.pdf"
  then Broken "%P" else healthy_disk p.

(** Two more worlds: one whose landing page is the login page, one whose
    landing page carries neither key. *)
Definition expired_world : World :=
  {| remote := demo_remote; on_write := healthy_disk;
     json_loads := fun _ => None; soup_text := fun s => s;
     soup_title := fun _ => None;
     course_page := fun _ => Some "<title>Kirjaudu</title>";
     course_state := fun _ _ => None |}.

Definition keyless_world : World :=
  {| remote := demo_remote; on_write := healthy_disk;
     json_loads := fun _ => None; soup_text := fun s => s;
     soup_title := fun _ => Some "Course";
     course_page := fun _ => Some "<html>no keys here</html>";
     course_state := fun _ _ => None |}.

Definition demo_cached_state : State :=
  {| history := HDict {[ "http://m/u2" := JStr "s/notes" ]}; fs := ∅;
     requests := []; downloads := []; failures := [] |}.

(** ** Vocabulary for comparing two runs *)

(** The value that [_load_history] reads off a disk. *)
Definition loaded (W : World) (disk : gmap string content) : pyhistory :=
  match disk !! index_file with
  | Some (HistoryJson h) => h
  | Some (Raw s) => default (HDict ∅) (json_loads W s)
  | None => HDict ∅
  end.

(** A URL whose request raises or is answered by an HTML page: fetching it
    can never create a history entry. *)
Definition no_file (W : World) (url : string) : bool :=
  match remote W (target_url url) with
  | None => true
  | Some resp => Str.contains "text/html" (ctype_of resp)
  end.

(** The README lines that a module contributes when every resource is
    answered as the fixed mapping [m] says. *)
Definition module_lines (W : World) (cm_map : gmap string CourseModule)
    (m : gmap string jval) (id : string) : list string :=
  match cm_map !! id with
  | None => []
  | Some item =>
      if String.eqb (cm_module item) "resource" then
        match cm_url item with
        | None => []
        | Some url =>
            match m !! url with
            | Some (JStr path) =>
                if String.eqb path EmptyString then []
                else [local_link path (soup_text W (cm_name item))]
            | Some (JOther _) | None => []
            end
        end
      else [remote_link (soup_text W (cm_name item)) (default "#" (cm_url item))]
  end.

Definition section_lines (W : World) (cm_map : gmap string CourseModule)
    (m : gmap string jval) (sec : Section) : list string :=
  (nl +:+ "## " +:+ raw_name_of sec)
  :: concat (map (module_lines W cm_map m) (sec_cmlist sec)).

Definition course_lines (W : World) (m : gmap string jval)
    (state : CourseState) : list string :=
  concat (map (section_lines W (build_cm_map (cm state)) m) (section state)).

(** With respect to the mapping [m], a listed module is settled when it
    carries the keys the walk reads and, if it is a resource, its entry is
    not a truthy value other than a string and, if it has no entry,
    fetching it yields no file. *)
Definition module_settled (W : World) (cm_map : gmap string CourseModule)
    (m : gmap string jval) (id : string) : Prop :=
  match cm_map !! id with
  | None => True
  | Some item =>
      if String.eqb (cm_module item) "resource" then
        match cm_url item with
        | None => False
        | Some url =>
            m !! url <> Some (JOther true)
            /\ (m !! url = None -> no_file W url = true)
        end
      else True
  end.

(** A section is settled when its context note can be written and every
    module it lists is settled. *)
Definition section_settled (W : World) (subject_dir : string)
    (cm_map : gmap string CourseModule)
    (m : gmap string jval) (sec : Section) : Prop :=
  on_write W (path_join (path_join subject_dir (_clean_name (raw_name_of sec)))
                        "context.txt") = Written
  /\ Forall (module_settled W cm_map m) (sec_cmlist sec).

Definition course_settled (W : World) (subject_dir : string)
    (m : gmap string jval) (state : CourseState) : Prop :=
  Forall (section_settled W subject_dir (build_cm_map (cm state)) m)
         (section state).

(** [m'] extends [m] by entries of URLs that do yield a file. *)
Definition ext (W : World) (m m' : gmap string jval) : Prop :=
  m ⊆ m' /\ forall url, m !! url = None -> is_Some (m' !! url) -> no_file W url = false.

(** A request that repeats a fetch which is bound to yield no file. *)
Definition retry (W : World) (m : gmap string jval) (r : request) : Prop :=
  exists url, r = ResourceGet (target_url url)
              /\ m !! url = None /\ no_file W url = true.

(** The state moved from [st] to [st'] without touching the history, the
    history file or any resource file, and no write failed; only retries
    were sent. *)
Definition quiet (W : World) (m : gmap string jval) (st st' : State) : Prop :=
  history st' = history st
  /\ downloads st' = downloads st
  /\ failures st' = failures st
  /\ fs st' !! index_file = fs st !! index_file
  /\ exists rs, requests st' = (requests st ++ rs)%list
                /\ Forall (retry W m) rs.

(** The history, a dict [m], grew into a dict [m'] by file-yielding URLs
    only, and the history file kept pace with it. *)
Definition grows (W : World) (m : gmap string jval) (st st' : State)
    (m' : gmap string jval) : Prop :=
  history st' = HDict m'
  /\ ext W m m'
  /\ (loaded W (fs st) = history st -> loaded W (fs st') = history st').

(** What one step of a loop of the walk does, in a first run during which
    no write fails and in a run that repeats it: [f] is the step, [lines]
    the README lines it is due to append and [settled] what the repeated
    run relies on. *)
Definition first_run_step (W : World) {A : Type}
    (f : list string -> A -> M (list string))
    (lines : gmap string jval -> A -> list string)
    (settled : gmap string jval -> A -> Prop) : Prop :=
  forall readme x st readme' st' m,
    history st = HDict m ->
    f readme x st = (Ok readme', st') ->
    failures st' = failures st ->
    exists m', grows W m st st' m'
      /\ forall mF, ext W m' mF ->
           readme' = (readme ++ lines mF x)%list /\ settled mF x.

Definition repeated_run_step (W : World) {A : Type}
    (f : list string -> A -> M (list string))
    (lines : gmap string jval -> A -> list string)
    (settled : gmap string jval -> A -> Prop) : Prop :=
  forall readme x st m,
    history st = HDict m ->
    settled m x ->
    exists st', f readme x st = (Ok (readme ++ lines m x)%list, st')
                /\ quiet W m st st'.

(** ** Vocabulary for what a run may do to the state *)

(** A dict only gains keys; any other history value stays what it is. *)
Definition history_le (h h' : pyhistory) : Prop :=
  match h with
  | HDict m => exists m', h' = HDict m' /\ m ⊆ m'
  | HList _ | HStr _ | HScalar => h' = h
  end.

(** [st'] only adds to [st]: no history entry is dropped or changed, no file
    disappears, and the logs grow at their end. *)
Definition extends (st st' : State) : Prop :=
  history_le (history st) (history st')
  /\ dom (fs st) ⊆ dom (fs st')
  /\ requests st `prefix_of` requests st'
  /\ downloads st `prefix_of` downloads st'
  /\ failures st `prefix_of` failures st'.

(** Whatever its outcome, the computation [m] relates the state it starts
    in to the state it leaves by [R]. *)
Definition keeps {A : Type} (R : State -> State -> Prop) (m : M A) : Prop :=
  forall st r st', m st = (r, st') -> R st st'.

(** The entry of [readme_content] that opens a section, and the test that
    recognises such entries. *)
Definition heading_of (sec : Section) : string :=
  nl +:+ "## " +:+ raw_name_of sec.

Definition is_heading (line : string) : bool :=
  String.prefix (nl +:+ "## ") line.

(** ** Proof tools *)

Ltac by_cases_on_char c :=
  destruct c as [[] [] [] [] [] [] [] []]; vm_compute; try reflexivity; try discriminate.

Ltac unfold_m :=
  unfold get_file, download, _save_history, downloader_init, _load_history,
    json_load, try_except, bind, ret, raise, lift, send, write_file,
    write_body, put_history, get_history in *;
  simpl in *.

(** * Properties *)
(** ** The name sanitizer *)

Lemma lower_char_lowered c : is_lowered (Str.lower_char c) = true.
Proof. by_cases_on_char c. Qed.

Lemma lower_char_space c : Str.is_space (Str.lower_char c) = Str.is_space c.
Proof. by_cases_on_char c. Qed.

Lemma is_lowered_eq c : is_lowered c = true -> Str.lower_char c = c.
Proof. unfold is_lowered. intros H. by apply Ascii.eqb_eq. Qed.

Lemma all_chars_cons p c r :
  all_chars p (String c r) = true <-> p c = true /\ all_chars p r = true.
Proof. simpl. apply andb_true_iff. Qed.

Lemma lower_all_lowered s : all_chars is_lowered (Str.lower s) = true.
Proof.
  induction s as [|c r IH]; simpl; [done|].
  by rewrite lower_char_lowered, IH.
Qed.

Lemma lstrip_all p s :
  all_chars p s = true -> all_chars p (Str.lstrip s) = true.
Proof.
  induction s as [|c r IH]; simpl; [done|].
  intros [Hc Hr]%andb_true_iff.
  destruct (Str.is_space c); [by apply IH|].
  simpl. by rewrite Hc, Hr.
Qed.

Lemma rstrip_all p s :
  all_chars p s = true -> all_chars p (Str.rstrip s) = true.
Proof.
  induction s as [|c r IH]; simpl; [done|].
  intros [Hc Hr]%andb_true_iff. specialize (IH Hr).
  destruct (Str.rstrip r) as [|c' r'].
  - destruct (Str.is_space c); simpl; [done|]. by rewrite Hc.
  - change (all_chars p (String c (String c' r')))
      with (p c && all_chars p (String c' r')).
    by rewrite Hc, IH.
Qed.

Lemma collapse_ws_all p b s :
  p "_"%char = true -> all_chars p s = true ->
  all_chars p (collapse_ws b s) = true.
Proof.
  intros Hu. revert b.
  induction s as [|c r IH]; intros b; simpl; [done|].
  intros [Hc Hr]%andb_true_iff.
  destruct (Str.is_space c), b; simpl; rewrite ?Hu, ?Hc; simpl; by apply IH.
Qed.

Lemma collapse_ws_no_space b s :
  all_chars not_space (collapse_ws b s) = true.
Proof.
  revert b. induction s as [|c r IH]; intros b; simpl; [done|].
  destruct (Str.is_space c) eqn:Hc.
  - destruct b; simpl; apply IH.
  - simpl. unfold not_space at 1. rewrite Hc. simpl. apply IH.
Qed.

Lemma remove_illegal_all p s :
  all_chars p s = true -> all_chars p (remove_illegal s) = true.
Proof.
  induction s as [|c r IH]; simpl; [done|].
  intros [Hc Hr]%andb_true_iff.
  destruct (is_illegal c); simpl; rewrite ?Hc; simpl; by apply IH.
Qed.

Lemma remove_illegal_legal s :
  all_chars is_legal (remove_illegal s) = true.
Proof.
  induction s as [|c r IH]; simpl; [done|].
  destruct (is_illegal c) eqn:Hc; simpl; [done|].
  unfold is_legal at 1. by rewrite Hc.
Qed.

(** Each pass of the sanitizer leaves a string alone that has nothing for it
    to change. *)
Lemma lower_fixed s : all_chars is_lowered s = true -> Str.lower s = s.
Proof.
  induction s as [|c r IH]; simpl; [done|].
  intros [Hc Hr]%andb_true_iff.
  by rewrite (is_lowered_eq _ Hc), IH.
Qed.

Lemma lstrip_fixed s : all_chars not_space s = true -> Str.lstrip s = s.
Proof.
  destruct s as [|c r]; simpl; [done|].
  intros [Hc _]%andb_true_iff.
  unfold not_space in Hc. by destruct (Str.is_space c).
Qed.

Lemma rstrip_fixed s : all_chars not_space s = true -> Str.rstrip s = s.
Proof.
  induction s as [|c r IH]; simpl; [done|].
  intros [Hc Hr]%andb_true_iff. rewrite (IH Hr).
  unfold not_space in Hc.
  destruct r; [by destruct (Str.is_space c)|done].
Qed.

Lemma collapse_ws_fixed b s :
  all_chars not_space s = true -> collapse_ws b s = s.
Proof.
  revert b. induction s as [|c r IH]; intros b; simpl; [done|].
  intros [Hc Hr]%andb_true_iff. unfold not_space in Hc.
  destruct (Str.is_space c); [done|]. by rewrite IH.
Qed.

Lemma remove_illegal_fixed s :
  all_chars is_legal s = true -> remove_illegal s = s.
Proof.
  induction s as [|c r IH]; simpl; [done|].
  intros [Hc Hr]%andb_true_iff. unfold is_legal in Hc.
  destruct (is_illegal c); [done|]. by rewrite IH.
Qed.

Lemma clean_name_lowered s : all_chars is_lowered (_clean_name s) = true.
Proof.
  unfold _clean_name, Str.strip.
  apply remove_illegal_all, collapse_ws_all; [done|].
  apply rstrip_all, lstrip_all, lower_all_lowered.
Qed.

Lemma clean_name_no_space s : all_chars not_space (_clean_name s) = true.
Proof.
  unfold _clean_name. apply remove_illegal_all, collapse_ws_no_space.
Qed.

Lemma clean_name_legal s : all_chars is_legal (_clean_name s) = true.
Proof. unfold _clean_name. apply remove_illegal_legal. Qed.

Lemma clean_name_fixed s :
  all_chars is_lowered s = true -> all_chars not_space s = true ->
  all_chars is_legal s = true -> _clean_name s = s.
Proof.
  intros Hl Hs Hi. unfold _clean_name, Str.strip.
  rewrite (lower_fixed _ Hl), (lstrip_fixed _ Hs), (rstrip_fixed _ Hs),
    (collapse_ws_fixed _ _ Hs).
  by apply remove_illegal_fixed.
Qed.

(** C9: the sanitizer is idempotent, and its output has no character that
    [lower] would change (so no uppercase letter), no whitespace and none of
    the nine illegal characters. *)
Theorem clean_name_idempotent (s : string) :
  _clean_name (_clean_name s) = _clean_name s
  /\ all_chars is_lowered (_clean_name s) = true
  /\ all_chars not_space (_clean_name s) = true
  /\ all_chars is_legal (_clean_name s) = true.
Proof.
  split; [|split; [|split]].
  - apply clean_name_fixed;
      [apply clean_name_lowered|apply clean_name_no_space|apply clean_name_legal].
  - apply clean_name_lowered.
  - apply clean_name_no_space.
  - apply clean_name_legal.
Qed.

(** ** Filename inference *)

Example clean_name_example :
  _clean_name "  Week 1:  Intro/Basics?  " = "week_1_introbasics".
Proof. reflexivity. Qed.

Example strip_kind_suffix_newline :
  strip_kind_suffix ("FileFile" +:+ String "010" EmptyString)
  = "File" +:+ String "010" EmptyString.
Proof. reflexivity. Qed.

Example path_join_examples :
  path_join "s" EmptyString = "s/"
  /\ path_join EmptyString EmptyString = EmptyString /\
  path_join "a/" "b" = "a/b" /\ path_join "a" "/b" = "/b".
Proof. repeat split. Qed.

Example syllabus_no_double_extension :
  stored_filename "application/pdf" "Syllabus.pdf" = "syllabus.pdf".
Proof. reflexivity. Qed.

(** The suffix test of line 98 decides between the two branches. *)
Lemma stored_filename_known ctype display_name :
  existsb (Str.endswith (base_name_of display_name)) known_suffixes = true ->
  stored_filename ctype display_name = base_name_of display_name.
Proof. unfold stored_filename. by intros ->. Qed.

Lemma stored_filename_other ctype display_name :
  existsb (Str.endswith (base_name_of display_name)) known_suffixes = false ->
  stored_filename ctype display_name
  = base_name_of display_name +:+ ext_map_get ext_map ctype.
Proof. unfold stored_filename. by intros ->. Qed.

(** C4: [.txt] is an extension of the content-type table, yet it is not in
    the list that line 98 tests, so a base name that already ends in [.txt]
    gets the extension of [text/plain] a second time. *)
Theorem txt_extension_is_doubled :
  In ("text/plain", ".txt") ext_map
  /\ base_name_of "notes.txt" = "notes.txt"
  /\ Str.endswith (base_name_of "notes.txt") ".txt" = true
  /\ existsb (Str.endswith (base_name_of "notes.txt")) known_suffixes = false
  /\ stored_filename "text/plain" "notes.txt" = "notes.txt.txt".
Proof. repeat split; try reflexivity. simpl. tauto. Qed.

(** ** Paths: the history file is not a context note or a README *)

Lemma strip_suffix_unfold (w s : string) :
  Str.strip_suffix w s
  = if String.eqb s w then Some EmptyString
    else match s with
         | EmptyString => None
         | String c r => String c <$> Str.strip_suffix w r
         end.
Proof. by destruct s. Qed.

Lemma append_assoc (x y z : string) : x +:+ (y +:+ z) = (x +:+ y) +:+ z.
Proof.
  induction x as [|c x IH]; [done|].
  change (String c (x +:+ (y +:+ z)) = String c ((x +:+ y) +:+ z)).
  by rewrite IH.
Qed.

Lemma endswith_app (x b : string) : Str.endswith (x +:+ b) b = true.
Proof.
  unfold Str.endswith.
  induction x as [|c x IH].
  - change (EmptyString +:+ b) with b.
    by rewrite strip_suffix_unfold, String.eqb_refl.
  - change (String c x +:+ b) with (String c (x +:+ b)).
    rewrite strip_suffix_unfold.
    destruct (String.eqb (String c (x +:+ b)) b); [done|].
    by destruct (Str.strip_suffix b (x +:+ b)).
Qed.

Lemma path_join_endswith (a b : string) : Str.endswith (path_join a b) b = true.
Proof.
  unfold path_join.
  destruct (String.prefix "/" b).
  - apply (endswith_app EmptyString).
  - destruct (_ || _).
    + apply endswith_app.
    + rewrite append_assoc. apply endswith_app.
Qed.

Lemma path_join_not_index (a b : string) :
  Str.endswith index_file b = false -> path_join a b <> index_file.
Proof.
  intros Hb Heq. pose proof (path_join_endswith a b) as He.
  rewrite Heq in He. congruence.
Qed.

Lemma context_path_not_index (a : string) : path_join a "context.txt" <> index_file.
Proof. by apply path_join_not_index. Qed.

Lemma readme_path_not_index (subject_name : string) :
  readme_path subject_name <> index_file.
Proof. by apply path_join_not_index. Qed.

(** ** The sanitizer and the stored file name *)

Lemma illegal_char_facts c :
  is_illegal c = true -> Str.lower_char c = c /\ Str.is_space c = false.
Proof. by_cases_on_char c; intros; done. Qed.

Lemma lower_all_spaces s :
  all_chars Str.is_space s = true -> all_chars Str.is_space (Str.lower s) = true.
Proof.
  induction s as [|c r IH]; simpl; [done|].
  intros [Hc Hr]%andb_true_iff. by rewrite lower_char_space, Hc, IH.
Qed.

Lemma lstrip_all_spaces s :
  all_chars Str.is_space s = true -> Str.lstrip s = EmptyString.
Proof.
  induction s as [|c r IH]; simpl; [done|].
  intros [Hc Hr]%andb_true_iff. rewrite Hc. by apply IH.
Qed.

Lemma lower_all_illegal s :
  all_chars is_illegal s = true -> Str.lower s = s.
Proof.
  induction s as [|c r IH]; simpl; [done|].
  intros [Hc Hr]%andb_true_iff.
  destruct (illegal_char_facts c Hc) as [-> _]. by rewrite IH.
Qed.

Lemma illegal_not_space s :
  all_chars is_illegal s = true -> all_chars not_space s = true.
Proof.
  induction s as [|c r IH]; simpl; [done|].
  intros [Hc Hr]%andb_true_iff. unfold not_space at 1.
  destruct (illegal_char_facts c Hc) as [_ ->]. by apply IH.
Qed.

Lemma remove_illegal_all_illegal s :
  all_chars is_illegal s = true -> remove_illegal s = EmptyString.
Proof.
  induction s as [|c r IH]; simpl; [done|].
  intros [Hc Hr]%andb_true_iff. rewrite Hc. by apply IH.
Qed.

(** X8: a name made only of whitespace, or only of illegal characters, is
    sanitized to the empty string. *)
Theorem clean_name_can_be_empty (s : string) :
  all_chars Str.is_space s = true \/ all_chars is_illegal s = true ->
  _clean_name s = EmptyString.
Proof.
  unfold _clean_name, Str.strip. intros [Hs|Hi].
  - by rewrite (lstrip_all_spaces _ (lower_all_spaces _ Hs)).
  - pose proof (illegal_not_space _ Hi) as Hn.
    rewrite (lower_all_illegal _ Hi), (lstrip_fixed _ Hn), (rstrip_fixed _ Hn),
      (collapse_ws_fixed _ _ Hn).
    by apply remove_illegal_all_illegal.
Qed.

Lemma clean_name_can_be_empty_witness :
  _clean_name "?:*" = EmptyString.
Proof. apply clean_name_can_be_empty. right. reflexivity. Defined.

Lemma all_chars_app p (a b : string) :
  all_chars p (a +:+ b) = all_chars p a && all_chars p b.
Proof.
  induction a as [|c a IH]; [done|].
  change (all_chars p (String c (a +:+ b)) = p c && all_chars p a && all_chars p b).
  simpl. by rewrite IH, andb_assoc.
Qed.

Lemma ext_map_get_values (ctype : string) :
  In (ext_map_get ext_map ctype)
     [EmptyString; ".pdf"; ".docx"; ".doc"; ".pptx"; ".ppt"; ".xlsx"; ".xls";
      ".txt"; ".zip"].
Proof.
  unfold ext_map. cbn [ext_map_get]. unfold In.
  repeat match goal with
         | |- context [String.eqb ?k ctype] =>
             destruct (String.eqb k ctype);
             [repeat (first [left; reflexivity | right])|]
         end.
  by left.
Qed.

Lemma extension_is_clean (ctype : string) :
  all_chars is_lowered (ext_map_get ext_map ctype) = true
  /\ all_chars not_space (ext_map_get ext_map ctype) = true
  /\ all_chars is_legal (ext_map_get ext_map ctype) = true.
Proof.
  pose proof (ext_map_get_values ctype) as Hin. unfold In in Hin.
  repeat (destruct Hin as [<-|Hin]; [by vm_compute|]). done.
Qed.

Lemma stored_filename_chars (ctype display_name : string) :
  all_chars is_lowered (stored_filename ctype display_name) = true
  /\ all_chars not_space (stored_filename ctype display_name) = true
  /\ all_chars is_legal (stored_filename ctype display_name) = true.
Proof.
  destruct (extension_is_clean ctype) as (El & Es & Ei).
  unfold stored_filename, base_name_of.
  destruct (existsb _ known_suffixes).
  - by rewrite clean_name_lowered, clean_name_no_space, clean_name_legal.
  - rewrite !all_chars_app, El, Es, Ei.
    by rewrite clean_name_lowered, clean_name_no_space, clean_name_legal.
Qed.

(** X10: whatever the content type and the display name, the stored file
    name is a sanitized name: no character that [lower] would change, no
    whitespace, none of the nine illegal characters (so no path separator),
    and sanitizing it again changes nothing. *)
Theorem stored_filename_is_clean (ctype display_name : string) :
  all_chars is_lowered (stored_filename ctype display_name) = true
  /\ all_chars not_space (stored_filename ctype display_name) = true
  /\ all_chars is_legal (stored_filename ctype display_name) = true
  /\ _clean_name (stored_filename ctype display_name)
     = stored_filename ctype display_name.
Proof.
  destruct (stored_filename_chars ctype display_name) as (Hl & Hs & Hi).
  repeat (split; [done|]). by apply clean_name_fixed.
Qed.

(** X11: a response of a content type that is in the table is always stored
    under a name that ends in one of the nine extensions. *)
Theorem stored_filename_has_extension (ctype display_name : string) :
  ext_map_get ext_map ctype <> EmptyString ->
  existsb (Str.endswith (stored_filename ctype display_name))
          (known_suffixes ++ [".txt"]) = true.
Proof.
  intros Hext. unfold stored_filename.
  destruct (existsb _ known_suffixes) eqn:Hknown.
  - rewrite existsb_app, Hknown. done.
  - pose proof (ext_map_get_values ctype) as Hin. unfold In in Hin.
    destruct Hin as [Hempty|Hin]; [congruence|].
    unfold known_suffixes. cbn [existsb app].
    repeat (destruct Hin as [<-|Hin];
            [rewrite endswith_app; by rewrite ?orb_true_r, ?orb_true_l|]).
    done.
Qed.

Lemma stored_filename_has_extension_witness :
  existsb (Str.endswith (stored_filename "application/msword" "Report File"))
          (known_suffixes ++ [".txt"]) = true.
Proof. apply stored_filename_has_extension. discriminate. Defined.

Lemma legal_no_slash_prefix (s : string) :
  all_chars is_legal s = true -> String.prefix "/" s = false.
Proof.
  destruct s as [|c s]; [done|]. intros Hc.
  destruct c as [[] [] [] [] [] [] [] []]; try reflexivity.
  by vm_compute in Hc.
Qed.

Lemma legal_no_slash_suffix (s : string) :
  all_chars is_legal s = true -> Str.endswith s "/" = false.
Proof.
  unfold Str.endswith. induction s as [|c s IH]; [done|].
  intros [Hc Hs]%andb_true_iff. rewrite strip_suffix_unfold.
  destruct (String.eqb_spec (String c s) "/") as [[= -> ->]|_];
    [by vm_compute in Hc|].
  specialize (IH Hs). by destruct (Str.strip_suffix "/" s).
Qed.

(** X12: the relative path of a download is the stored name directly inside
    the section folder: a sanitized folder name and a stored file name hold
    no separator, so [os.path.join] can neither restart from the file name
    nor skip the separator; an empty folder name leaves the bare name. *)
Theorem stored_path_inside_folder (raw_name ctype display_name : string) :
  path_join (_clean_name raw_name) (stored_filename ctype display_name)
  = if String.eqb (_clean_name raw_name) EmptyString
    then stored_filename ctype display_name
    else _clean_name raw_name +:+ "/" +:+ stored_filename ctype display_name.
Proof.
  unfold path_join.
  destruct (stored_filename_chars ctype display_name) as (_ & _ & Hi).
  rewrite (legal_no_slash_prefix _ Hi),
    (legal_no_slash_suffix _ (clean_name_legal raw_name)).
  rewrite orb_false_r. by destruct (String.eqb _ EmptyString) eqn:He;
    [apply String.eqb_eq in He as ->|].
Qed.

(** ** Request URLs and paths *)

Lemma append_length (a b : string) :
  String.length (a +:+ b) = (String.length a + String.length b)%nat.
Proof.
  induction a as [|c a IH]; [done|].
  change (S (String.length (a +:+ b)) = S (String.length a + String.length b)).
  by rewrite IH.
Qed.

Lemma append_inj_length (a b x y : string) :
  a +:+ x = b +:+ y -> String.length a = String.length b -> a = b.
Proof.
  revert b. induction a as [|c a IH]; intros [|d b]; try done.
  change ((String c (a +:+ x) = String d (b +:+ y)) ->
          S (String.length a) = S (String.length b) -> String c a = String d b).
  intros [= -> Heq] [= Hlen]. by rewrite (IH b Heq Hlen).
Qed.

(** X14: the request URL tells the resource URLs apart: two URLs with the
    same [redirect=1] request URL are the same URL. *)
Theorem target_url_injective (u v : string) :
  target_url u = target_url v -> u = v.
Proof.
  unfold target_url. intros Heq.
  apply (append_inj_length _ _ _ _ Heq).
  apply (f_equal String.length) in Heq. rewrite !append_length in Heq.
  destruct (Str.contains "?" u), (Str.contains "?" v); simpl in Heq; lia.
Qed.

Lemma target_url_injective_witness :
  "http://m/u1" = "http://m/u1".
Proof. apply target_url_injective. reflexivity. Defined.

(** X15: the files the walk writes for itself, a section's [context.txt] and
    the subject's [README.md], are never the history file, whatever the
    subject and the section are called. *)
Theorem walk_files_are_not_the_history_file (subject_name raw_name : string) :
  path_join (path_join (subject_dir_of subject_name) (_clean_name raw_name))
            "context.txt" <> index_file
  /\ readme_path subject_name <> index_file.
Proof.
  split; [apply context_path_not_index|apply readme_path_not_index].
Qed.

(** ** The module table *)

Lemma build_cm_map_snoc (items : list CourseModule) (item : CourseModule) :
  build_cm_map (items ++ [item]) = <[cm_id item := item]> (build_cm_map items).
Proof. unfold build_cm_map. by rewrite foldl_app. Qed.

(** X16: when two module records carry the same id, the later one is the
    one the walk sees: a record is found under its id as long as no record
    after it has that id. *)
Theorem build_cm_map_last_wins
    (before after : list CourseModule) (item : CourseModule) :
  Forall (fun later => cm_id later <> cm_id item) after ->
  build_cm_map (before ++ item :: after) !! cm_id item = Some item.
Proof.
  induction after as [|later after IH] using rev_ind; intros Hafter.
  - rewrite build_cm_map_snoc. apply lookup_insert_eq.
  - apply Forall_app in Hafter as [Hafter Hlater].
    apply Forall_cons in Hlater as [Hne _].
    change (before ++ item :: after ++ [later])%list
      with (before ++ (item :: after) ++ [later])%list.
    rewrite app_assoc, build_cm_map_snoc, lookup_insert_ne by done.
    by apply IH.
Qed.

Lemma build_cm_map_last_wins_witness :
  build_cm_map
    ([ {| cm_id := "7"; cm_name := "old"; cm_module := "resource"; cm_url := None |} ]
     ++ {| cm_id := "7"; cm_name := "new"; cm_module := "page"; cm_url := None |}
     :: [ {| cm_id := "8"; cm_name := "other"; cm_module := "page"; cm_url := None |} ])
    !! "7"
  = Some {| cm_id := "7"; cm_name := "new"; cm_module := "page"; cm_url := None |}.
Proof.
  apply (build_cm_map_last_wins
           [ {| cm_id := "7"; cm_name := "old"; cm_module := "resource"; cm_url := None |} ]
           [ {| cm_id := "8"; cm_name := "other"; cm_module := "page"; cm_url := None |} ]
           {| cm_id := "7"; cm_name := "new"; cm_module := "page"; cm_url := None |}).
  constructor; [discriminate|constructor].
Defined.

(** X17: an id under which the table has a record is the id of a record of
    the list, and that record is the one found. *)
Theorem build_cm_map_sound (items : list CourseModule) (id : string)
    (item : CourseModule) :
  build_cm_map items !! id = Some item -> In item items /\ cm_id item = id.
Proof.
  induction items as [|last items IH] using rev_ind.
  - done.
  - rewrite build_cm_map_snoc.
    destruct (decide (cm_id last = id)) as [<-|Hne].
    + rewrite lookup_insert_eq. intros [= <-].
      split; [|done]. apply in_or_app. right. by left.
    + rewrite lookup_insert_ne by done. intros Hfound.
      destruct (IH Hfound) as [Hin Hid]. split; [|done].
      apply in_or_app. by left.
Qed.

Lemma build_cm_map_sound_witness :
  In {| cm_id := "4"; cm_name := "forum"; cm_module := "forum"; cm_url := None |}
     (cm demo_course)
  /\ cm_id {| cm_id := "4"; cm_name := "forum"; cm_module := "forum";
              cm_url := None |} = "4".
Proof. apply build_cm_map_sound. reflexivity. Defined.

(** ** The landing page *)

Lemma span_all (p : ascii -> bool) (s g rest : string) :
  span p s = (g, rest) -> all_chars p g = true.
Proof.
  revert g rest. induction s as [|c s IH]; intros g rest; simpl.
  - by intros [= <- <-].
  - destruct (p c) eqn:Hc; [|by intros [= <- <-]].
    destruct (span p s) as [g' rest'] eqn:Hs. intros [= <- <-].
    simpl. rewrite Hc. by eapply IH.
Qed.

Lemma re_search_found (at_pos : string -> option string) (s g : string) :
  re_search at_pos s = Some g -> exists t, at_pos t = Some g.
Proof.
  induction s as [|c s IH]; simpl.
  - destruct (at_pos EmptyString) eqn:H0; [|done]. intros [= <-]. eauto.
  - destruct (at_pos (String c s)) eqn:H0; [intros [= <-]; eauto|]. apply IH.
Qed.

(** X18: a session key found in the landing page is never empty and holds
    no double quote. *)
Theorem sesskey_is_well_formed (text key : string) :
  re_search sesskey_at text = Some key ->
  key <> EmptyString /\ all_chars not_quote key = true.
Proof.
  intros [t Hat]%re_search_found. revert Hat. unfold sesskey_at.
  destruct (String.prefix _ t); [|done].
  destruct (span _ _) as [g rest] eqn:Hspan.
  destruct (String.eqb_spec g EmptyString) as [->|Hne]; simpl; [done|].
  destruct (String.prefix quote rest); [|done]. intros [= <-].
  split; [done|]. by apply span_all in Hspan.
Qed.

Lemma sesskey_is_well_formed_witness :
  "abc" <> EmptyString /\ all_chars not_quote "abc" = true.
Proof. apply (sesskey_is_well_formed demo_page "abc"). reflexivity. Defined.

(** X19: a course id found in the landing page is a non-empty string of
    decimal digits. *)
Theorem course_id_is_a_number (text id : string) :
  re_search course_id_at text = Some id ->
  id <> EmptyString /\ all_chars is_digit id = true.
Proof.
  intros [t Hat]%re_search_found. revert Hat. unfold course_id_at.
  destruct (String.prefix _ t); [|done].
  destruct (span _ _) as [g rest] eqn:Hspan.
  destruct (String.eqb_spec g EmptyString) as [->|Hne]; simpl; [done|].
  intros [= <-]. split; [done|]. by apply span_all in Hspan.
Qed.

Lemma course_id_is_a_number_witness :
  "42" <> EmptyString /\ all_chars is_digit "42" = true.
Proof. apply (course_id_is_a_number demo_page "42"). reflexivity. Defined.

(** ** The kind word at the end of a display name *)

Lemma strip_suffix_sound (w s p : string) :
  Str.strip_suffix w s = Some p -> s = p +:+ w.
Proof.
  revert p. induction s as [|c s IH]; intros p; rewrite strip_suffix_unfold.
  - destruct (String.eqb_spec EmptyString w) as [<-|_]; [|done].
    by intros [= <-].
  - destruct (String.eqb_spec (String c s) w) as [<-|_].
    + by intros [= <-].
    + destruct (Str.strip_suffix w s) as [p'|]; [|done].
      intros [= <-]. by rewrite (IH p' eq_refl).
Qed.

Lemma strip_suffix_complete (w name : string) :
  Str.strip_suffix w (name +:+ w) = Some name.
Proof.
  induction name as [|c name IH].
  - change (EmptyString +:+ w) with w.
    by rewrite strip_suffix_unfold, String.eqb_refl.
  - change (String c name +:+ w) with (String c (name +:+ w)).
    rewrite strip_suffix_unfold, IH.
    destruct (String.eqb_spec (String c (name +:+ w)) w) as [Heq|_]; [|done].
    apply (f_equal String.length) in Heq. simpl in Heq.
    rewrite append_length in Heq. lia.
Qed.

Lemma last_char_app (a b : string) :
  b <> EmptyString -> last_char (a +:+ b) = last_char b.
Proof.
  intros Hb. induction a as [|c a IH]; [done|].
  change (last_char (String c (a +:+ b)) = last_char b).
  simpl. rewrite IH. destruct b as [|d b]; [done|].
  simpl. by destruct (last_char b).
Qed.

Lemma strip_suffix_other_ending (w v name : string) :
  w <> EmptyString -> v <> EmptyString -> last_char w <> last_char v ->
  Str.strip_suffix w (name +:+ v) = None.
Proof.
  intros Hw Hv Hlast.
  destruct (Str.strip_suffix w (name +:+ v)) as [p|] eqn:Hs; [|done].
  apply strip_suffix_sound in Hs. apply (f_equal last_char) in Hs.
  rewrite !last_char_app in Hs by done. congruence.
Qed.

(** X26: a display name that ends in one of the words [File], [URL] or
    [Folder] loses exactly that word, and nothing else, before it is
    trimmed and sanitized. *)
Theorem kind_word_is_stripped (name word : string) :
  In word kind_suffixes ->
  strip_kind_suffix (name +:+ word) = name.
Proof.
  unfold strip_kind_suffix, kind_suffixes, In.
  intros [<-|[<-|[<-|[]]]]; cbn [strip_first_suffix].
  - by rewrite strip_suffix_complete.
  - rewrite (strip_suffix_other_ending "File" "URL") by done.
    by rewrite strip_suffix_complete.
  - rewrite (strip_suffix_other_ending "File" "Folder") by done.
    rewrite (strip_suffix_other_ending "URL" "Folder") by done.
    by rewrite strip_suffix_complete.
Qed.

Lemma kind_word_is_stripped_witness :
  strip_kind_suffix ("Week 3 slides " +:+ "Folder") = "Week 3 slides ".
Proof. apply kind_word_is_stripped. right. right. by left. Defined.

(** ** The HTML test *)

Lemma prefix_lower (sub s : string) :
  all_chars is_lowered sub = true ->
  String.prefix sub s = true -> String.prefix sub (Str.lower s) = true.
Proof.
  revert s. induction sub as [|a sub IH]; intros s Hsub; [by destruct s|].
  apply all_chars_cons in Hsub as [Ha Hsub].
  destruct s as [|b s]; simpl; [done|].
  destruct (ascii_dec a b) as [<-|Hne]; [|done].
  rewrite (is_lowered_eq _ Ha).
  destruct (ascii_dec a a); [|done]. by apply IH.
Qed.

Lemma contains_lower (sub s : string) :
  all_chars is_lowered sub = true ->
  Str.contains sub s = true -> Str.contains sub (Str.lower s) = true.
Proof.
  intros Hsub. induction s as [|b s IH].
  - done.
  - change (Str.contains sub (String b s))
      with (String.prefix sub (String b s) || Str.contains sub s).
    change (Str.contains sub (Str.lower (String b s)))
      with (String.prefix sub (Str.lower (String b s))
            || Str.contains sub (Str.lower s)).
    intros [Hp|Hc]%orb_true_iff.
    + by rewrite (prefix_lower _ _ Hsub Hp).
    + rewrite (IH Hc). apply orb_true_r.
Qed.

(** X27: lower-casing the header cannot hide an HTML page: a response whose
    declared content type contains [text/html] passes the test of line 80,
    whatever else the header holds and however that is capitalised. *)
Lemma declared_html_is_skipped (resp : Response) (declared : string) :
  content_type resp = Some declared ->
  Str.contains "text/html" declared = true ->
  Str.contains "text/html" (ctype_of resp) = true.
Proof.
  intros Hct Hhtml. unfold ctype_of. rewrite Hct. simpl.
  by apply contains_lower.
Qed.


Lemma declared_html_is_skipped_witness :
  Str.contains "text/html"
    (ctype_of {| content_type := Some "text/html; Charset=UTF-8"; body := EmptyString; complete := true |})
  = true.
Proof.
  apply (declared_html_is_skipped _ "text/html; Charset=UTF-8"); reflexivity.
Defined.

(** ** The history store *)



(** A file written by [_save_history] loads back as the value saved. *)
Lemma load_history_saved (W : World) (st : State) (h : pyhistory) :
  fs st !! index_file = Some (HistoryJson h) -> _load_history W st = (Ok h, st).
Proof. intros H. unfold_m. by rewrite H. Qed.

Lemma load_history_loaded (W : World) (st : State) :
  _load_history W st = (Ok (loaded W (fs st)), st).
Proof.
  unfold_m. unfold loaded.
  destruct (fs st !! index_file) as [[s|m]|]; [|done|done].
  by destruct (json_loads W s).
Qed.

Lemma loaded_insert_other (W : World) (disk : gmap string content)
    (path : string) (c : content) :
  path <> index_file -> loaded W (<[path := c]> disk) = loaded W disk.
Proof. intros Hne. unfold loaded. by rewrite lookup_insert_ne. Qed.

(** ** The fetcher *)

Lemma contains_false_dict (m : gmap string jval) (url : string) :
  history_contains (HDict m) url = Ok false <-> m !! url = None.
Proof. simpl. destruct (m !! url); split; (done || by intros [=]). Qed.

Section Fetcher.
Variable W : World.
Variables subject_path url folder_name display_name : string.

(** The branch of lines 73-75 when the history is a mapping. *)
Lemma get_file_hit (st : State) (m : gmap string jval) (v : jval) :
  history st = HDict m ->
  m !! url = Some v ->
  get_file W subject_path url folder_name display_name st = (Ok (Some v), st).
Proof. intros Hh Hin. unfold_m. rewrite Hh. simpl. by rewrite Hin. Qed.

(** C2: a URL already in the history mapping is answered from it: the
    stored value is returned, and the state (history, disk, requests sent,
    downloads written) is left exactly as it was. *)
Theorem get_file_cached (st : State) (m : gmap string jval) (path : jval) :
  history st = HDict m ->
  m !! url = Some path ->
  get_file W subject_path url folder_name display_name st = (Ok (Some path), st).
Proof. intros Hh Hin. unfold_m. rewrite Hh. simpl. by rewrite Hin. Qed.

(** C3: when the response declares a content type containing [text/html],
    [get_file] returns [None], writes nothing to the disk and adds nothing
    to the history; the request itself is the only trace. *)
Theorem get_file_html_skipped (st : State) (resp : Response) :
  history_contains (history st) url = Ok false ->
  remote W (target_url url) = Some resp ->
  Str.contains "text/html" (ctype_of resp) = true ->
  exists st', get_file W subject_path url folder_name display_name st = (Ok None, st')
    /\ fs st' = fs st
    /\ downloads st' = downloads st
    /\ failures st' = failures st
    /\ history st' = history st
    /\ requests st' = (requests st ++ [ResourceGet (target_url url)])%list.
Proof.
  intros Hmiss Hresp Hhtml. unfold_m.
  rewrite Hmiss, Hresp, Hhtml. simpl. eauto 10.
Qed.

(** What a successful new download leaves behind. *)
Lemma get_file_saved (st : State) (m : gmap string jval) (resp : Response) :
  history st = HDict m ->
  m !! url = None ->
  remote W (target_url url) = Some resp ->
  Str.contains "text/html" (ctype_of resp) = false ->
  complete resp = true ->
  let rel_path := path_join folder_name (stored_filename (ctype_of resp) display_name) in
  let full_path := path_join subject_path rel_path in
  let m' := <[url := JStr rel_path]> m in
  on_write W full_path = Written ->
  on_write W index_file = Written ->
  get_file W subject_path url folder_name display_name st =
    (Ok (Some (JStr rel_path)),
     put_file index_file (HistoryJson (HDict m'))
       (set_history (HDict m')
          (log_download full_path
             (put_file full_path (Raw (body resp))
                (with_requests st [ResourceGet (target_url url)]))))).
Proof.
  intros Hh Hmiss Hresp Hhtml Hdone rel_path full_path m' Hw Hi. unfold_m.
  rewrite Hh. simpl. rewrite Hmiss, Hresp, Hhtml. simpl.
  fold rel_path. fold full_path. rewrite Hw, Hdone. simpl.
  rewrite Hh. simpl. by rewrite Hi.
Qed.

(** Every way a fetch can go once the URL is found missing. *)
Lemma get_file_miss (st st' : State) (r : result (option jval)) :
  history_contains (history st) url = Ok false ->
  get_file W subject_path url folder_name display_name st = (r, st') ->
  let sent := with_requests st [ResourceGet (target_url url)] in
  match remote W (target_url url) with
  | None => r = Ok None /\ st' = sent
  | Some resp =>
      if Str.contains "text/html" (ctype_of resp) then r = Ok None /\ st' = sent
      else
        let rel_path :=
          path_join folder_name (stored_filename (ctype_of resp) display_name) in
        let full_path := path_join subject_path rel_path in
        match on_write W full_path with
        | Refused => r = Ok None /\ st' = log_failure full_path sent
        | Broken partial =>
            r = Ok None
            /\ st' = log_failure full_path (put_file full_path (Raw partial) sent)
        | Written =>
            let stored := put_file full_path (Raw (body resp)) sent in
            if complete resp then
              match history_setitem (history st) url rel_path with
              | Raise _ => r = Ok None /\ st' = log_download full_path stored
              | Ok h' =>
                  let kept := set_history h' (log_download full_path stored) in
                  match on_write W index_file with
                  | Written =>
                      r = Ok (Some (JStr rel_path))
                      /\ st' = put_file index_file (HistoryJson h') kept
                  | Broken partial =>
                      r = Ok None
                      /\ st' = log_failure index_file
                                 (put_file index_file (Raw partial) kept)
                  | Refused => r = Ok None /\ st' = log_failure index_file kept
                  end
              end
            else r = Ok None /\ st' = log_failure full_path stored
        end
  end.
Proof.
  intros Hmiss. unfold_m. rewrite Hmiss.
  destruct (remote W (target_url url)) as [resp|]; [|by intros [= <- <-]].
  destruct (Str.contains "text/html" (ctype_of resp)); [by intros [= <- <-]|].
  simpl.
  destruct (on_write W (path_join subject_path _)); simpl;
    [|by intros [= <- <-]..].
  destruct (complete resp); simpl; [|by intros [= <- <-]].
  destruct (history_setitem (history st) url _) as [h'|e]; simpl;
    [|by intros [= <- <-]].
  destruct (on_write W index_file); simpl; by intros [= <- <-].
Qed.

(** C8: whenever [get_file] returns a value (rather than [None]), the
    history is then a mapping that holds exactly that value for the
    requested URL (cached and new-download branch). *)
Theorem get_file_path_in_history (st st' : State) (path : jval) :
  get_file W subject_path url folder_name display_name st = (Ok (Some path), st') ->
  exists m, history st' = HDict m /\ m !! url = Some path.
Proof.
  intros Hrun.
  destruct (history_contains (history st) url) as [[]|e] eqn:Hc.
  - revert Hrun. unfold_m. rewrite Hc.
    destruct (history st) as [m|items|s|] eqn:Hh; simpl; try done.
    destruct (m !! url) as [v|] eqn:Hm; [|done].
    intros [= <- <-]. eauto.
  - pose proof (get_file_miss st st' _ Hc Hrun) as Hcase. simpl in Hcase.
    destruct (remote W (target_url url)) as [resp|]; [|by destruct Hcase].
    destruct (Str.contains "text/html" (ctype_of resp)); [by destruct Hcase|].
    destruct (on_write W (path_join subject_path _)); try by destruct Hcase.
    destruct (complete resp); [|by destruct Hcase].
    destruct (history st) as [m|items|s|]; simpl in Hcase; try by destruct Hcase.
    destruct (on_write W index_file); try by destruct Hcase.
    destruct Hcase as [[= <-] ->]. simpl.
    eexists. split; [done|]. apply lookup_insert_eq.
  - revert Hrun. unfold_m. by rewrite Hc.
Qed.

(** C6: a new download that succeeds has inserted the entry and written
    the whole mapping to the history file before [get_file] returns, so
    the file holds exactly the in-memory mapping and loads back as it. *)
Theorem get_file_persists_at_once (st st' : State) (path : jval) :
  history_contains (history st) url = Ok false ->
  get_file W subject_path url folder_name display_name st = (Ok (Some path), st') ->
  exists m, history st = HDict m
    /\ history st' = HDict (<[url := path]> m)
    /\ fs st' !! index_file = Some (HistoryJson (history st'))
    /\ _load_history W st' = (Ok (history st'), st').
Proof.
  intros Hc Hrun.
  pose proof (get_file_miss st st' _ Hc Hrun) as Hcase. simpl in Hcase.
  destruct (remote W (target_url url)) as [resp|]; [|by destruct Hcase].
  destruct (Str.contains "text/html" (ctype_of resp)); [by destruct Hcase|].
  destruct (on_write W (path_join subject_path _)); try by destruct Hcase.
  destruct (complete resp); [|by destruct Hcase].
  destruct (history st) as [m|items|s|]; simpl in Hcase; try by destruct Hcase.
  destruct (on_write W index_file); try by destruct Hcase.
  destruct Hcase as [[= <-] ->]. simpl.
  exists m. split; [done|]. split; [done|].
  assert (forall (disk : gmap string content) c, <[index_file := c]> disk !! index_file = Some c)
    as Hput by (intros; apply lookup_insert_eq).
  split; [apply Hput|]. apply load_history_saved. apply Hput.
Qed.
End Fetcher.

Lemma get_file_cached_witness :
  get_file (demo_world healthy_disk demo_course) "Second Semester/subj"
    "http://m/u2" "s" "File" demo_cached_state
  = (Ok (Some (JStr "s/notes")), demo_cached_state).
Proof.
  apply (get_file_cached (demo_world healthy_disk demo_course)
           "Second Semester/subj" "http://m/u2" "s" "File"
           demo_cached_state {[ "http://m/u2" := JStr "s/notes" ]}
           (JStr "s/notes")); reflexivity.
Defined.

Lemma get_file_html_skipped_witness :
  exists st',
    get_file (demo_world healthy_disk demo_course) "Second Semester/subj"
      "http://m/u1" "s" "page" (initial_state ∅) = (Ok None, st')
    /\ fs st' = ∅
    /\ downloads st' = []
    /\ failures st' = []
    /\ history st' = HDict ∅
    /\ requests st' = [ResourceGet "http://m/u1?redirect=1"].
Proof.
  apply (get_file_html_skipped (demo_world healthy_disk demo_course)
           "Second Semester/subj" "http://m/u1" "s" "page" (initial_state ∅)
           {| content_type := Some "Text/HTML; charset=utf-8";
              body := "<html>"; complete := true |});
    reflexivity.
Defined.

Lemma get_file_path_in_history_witness :
  exists m,
    history (snd (get_file (demo_world healthy_disk demo_course)
                    "Second Semester/subj" "http://m/u3" "s" "Lecture Notes File"
                    (initial_state ∅))) = HDict m
    /\ m !! "http://m/u3" = Some (JStr "s/lecture_notes.pdf").
Proof.
  apply (get_file_path_in_history (demo_world healthy_disk demo_course)
           "Second Semester/subj" "http://m/u3" "s" "Lecture Notes File"
           (initial_state ∅)).
  reflexivity.
Defined.

Lemma get_file_persists_at_once_witness :
  let st' := snd (get_file (demo_world healthy_disk demo_course)
                    "Second Semester/subj" "http://m/u3" "s" "Lecture Notes File"
                    (initial_state ∅)) in
  exists m, history (initial_state ∅) = HDict m
    /\ history st' = HDict (<[ "http://m/u3" := JStr "s/lecture_notes.pdf" ]> m)
    /\ fs st' !! index_file = Some (HistoryJson (history st'))
    /\ _load_history (demo_world healthy_disk demo_course) st' = (Ok (history st'), st').
Proof.
  apply (get_file_persists_at_once (demo_world healthy_disk demo_course)
           "Second Semester/subj" "http://m/u3" "s" "Lecture Notes File"
           (initial_state ∅)); reflexivity.
Defined.

(** C5: a PDF response for the display name [Lecture Notes File] is stored
    as [lecture_notes.pdf]: the trailing word [File] is stripped, the rest is
    trimmed, lower-cased, its blank becomes an underscore and [.pdf] is
    appended; [get_file] returns that name joined to the folder. *)
Theorem lecture_notes_filename
    (W : World) (subject_path url folder_name : string)
    (st : State) (m : gmap string jval) (resp : Response) :
  history st = HDict m ->
  m !! url = None ->
  remote W (target_url url) = Some resp ->
  content_type resp = Some "application/pdf" ->
  complete resp = true ->
  on_write W (path_join subject_path (path_join folder_name "lecture_notes.pdf")) = Written ->
  on_write W index_file = Written ->
  strip_kind_suffix "Lecture Notes File" = "Lecture Notes "
  /\ Str.strip "Lecture Notes " = "Lecture Notes"
  /\ _clean_name "Lecture Notes" = "lecture_notes"
  /\ stored_filename "application/pdf" "Lecture Notes File" = "lecture_notes.pdf"
  /\ exists st',
       get_file W subject_path url folder_name "Lecture Notes File" st
       = (Ok (Some (JStr (path_join folder_name "lecture_notes.pdf"))), st')
       /\ downloads st'
          = (downloads st
             ++ [path_join subject_path (path_join folder_name "lecture_notes.pdf")])%list.
Proof.
  intros Hh Hmiss Hresp Hct Hdone Hw Hi.
  repeat (split; [reflexivity|]).
  assert (ctype_of resp = "application/pdf") as Hc.
  { unfold ctype_of. by rewrite Hct. }
  pose proof (get_file_saved W subject_path url folder_name "Lecture Notes File"
                st m resp Hh Hmiss Hresp) as Hsaved.
  cbv zeta in Hsaved. rewrite Hc in Hsaved.
  change (stored_filename "application/pdf" "Lecture Notes File")
    with "lecture_notes.pdf" in Hsaved.
  rewrite (Hsaved eq_refl Hdone Hw Hi). eexists. split; reflexivity.
Qed.

Lemma lecture_notes_filename_witness :
  stored_filename "application/pdf" "Lecture Notes File" = "lecture_notes.pdf"
  /\ fst (get_file (demo_world healthy_disk demo_course) "Second Semester/subj"
            "http://m/u3" "s" "Lecture Notes File" (initial_state ∅))
     = Ok (Some (JStr "s/lecture_notes.pdf")).
Proof.
  destruct (lecture_notes_filename (demo_world healthy_disk demo_course)
              "Second Semester/subj" "http://m/u3" "s" (initial_state ∅) ∅
              {| content_type := Some "application/pdf"; body := "%PDF";
                 complete := true |}
              eq_refl eq_refl eq_refl eq_refl eq_refl eq_refl eq_refl)
    as (_ & _ & _ & Hname & st' & Hrun & _).
  split; [exact Hname|]. rewrite Hrun. reflexivity.
Defined.

(** ** The fetcher: failures and frame *)

Section FetcherEdges.
Variable W : World.
Variables subject_path url folder_name display_name : string.

(** X28: the membership test of line 73 and the lookup of line 75 stand
    outside the [try], so a loaded history that is not a mapping can make
    [get_file] raise: it does when the history is a JSON scalar, and when it
    is a list or a string that contains the URL.  Nothing is requested or
    written before it raises. *)
Theorem get_file_raises_without_dict (st : State) :
  history st = HScalar
  \/ (history_contains (history st) url = Ok true
      /\ forall m, history st <> HDict m) ->
  exists e, get_file W subject_path url folder_name display_name st
            = (Raise e, st).
Proof.
  intros [Hs|[Hc Hnd]]; unfold_m.
  - rewrite Hs. simpl. eauto.
  - rewrite Hc. destruct (history st) as [m|items|s|]; simpl; eauto.
    by destruct (Hnd m).
Qed.

(** X2: a request that raises is swallowed: [get_file] returns [None], the
    history, the disk and the download log are untouched, and the request is
    the only trace. *)
Theorem get_file_request_fails (st : State) :
  history_contains (history st) url = Ok false ->
  remote W (target_url url) = None ->
  get_file W subject_path url folder_name display_name st
  = (Ok None, with_requests st [ResourceGet (target_url url)]).
Proof. intros Hmiss Hresp. unfold_m. by rewrite Hmiss, Hresp. Qed.

(** X3: when the resource file cannot be written in full (it cannot be
    opened, the write breaks, or the stream breaks), [get_file] returns
    [None], makes no history entry and does not save the history.  The disk
    is untouched only when the file could not be opened; otherwise the file
    stays on the disk with what had been written. *)
Theorem get_file_write_fails (st : State) (resp : Response) :
  history_contains (history st) url = Ok false ->
  remote W (target_url url) = Some resp ->
  Str.contains "text/html" (ctype_of resp) = false ->
  let full_path :=
    path_join subject_path
      (path_join folder_name (stored_filename (ctype_of resp) display_name)) in
  on_write W full_path <> Written \/ complete resp = false ->
  exists st',
    get_file W subject_path url folder_name display_name st = (Ok None, st')
    /\ history st' = history st
    /\ downloads st' = downloads st
    /\ failures st' = (failures st ++ [full_path])%list
    /\ fs st' = match on_write W full_path with
                | Refused => fs st
                | Broken partial => <[full_path := Raw partial]> (fs st)
                | Written => <[full_path := Raw (body resp)]> (fs st)
                end.
Proof.
  intros Hmiss Hresp Hhtml full_path Hfail.
  destruct (get_file W subject_path url folder_name display_name st)
    as [r st'] eqn:Hrun.
  pose proof (get_file_miss W subject_path url folder_name display_name
                st st' _ Hmiss Hrun) as Hcase. simpl in Hcase.
  rewrite Hresp, Hhtml in Hcase. fold full_path in Hcase.
  destruct (on_write W full_path).
  - destruct Hfail as [?|Hcut]; [done|]. rewrite Hcut in Hcase.
    destruct Hcase as [-> ->]. eauto 10.
  - destruct Hcase as [-> ->]. eauto 10.
  - destruct Hcase as [-> ->]. eauto 10.
Qed.

(** X4: when the resource file is written but the history file cannot be
    saved, [get_file] returns [None] although the entry is already in the
    in-memory history and the file is on the disk, and asking for the same
    URL again answers from the cache.  The history file is left as it was
    only when it could not be opened; a write that breaks leaves it with
    what had been written. *)
Theorem get_file_save_fails (st : State) (m : gmap string jval) (resp : Response) :
  history st = HDict m ->
  m !! url = None ->
  remote W (target_url url) = Some resp ->
  Str.contains "text/html" (ctype_of resp) = false ->
  complete resp = true ->
  let rel_path := path_join folder_name (stored_filename (ctype_of resp) display_name) in
  let full_path := path_join subject_path rel_path in
  on_write W full_path = Written ->
  on_write W index_file <> Written ->
  exists st',
    get_file W subject_path url folder_name display_name st = (Ok None, st')
    /\ history st' = HDict (<[url := JStr rel_path]> m)
    /\ fs st' !! full_path = Some (Raw (body resp))
    /\ fs st' !! index_file
       = match on_write W index_file with
         | Broken partial => Some (Raw partial)
         | Refused | Written => fs st !! index_file
         end
    /\ get_file W subject_path url folder_name display_name st'
       = (Ok (Some (JStr rel_path)), st').
Proof.
  intros Hh Hmiss Hresp Hhtml Hdone rel_path full_path Hw Hi.
  assert (full_path <> index_file) as Hne by congruence.
  destruct (get_file W subject_path url folder_name display_name st)
    as [r st'] eqn:Hrun.
  assert (history_contains (history st) url = Ok false) as Hc.
  { rewrite Hh. by apply contains_false_dict. }
  pose proof (get_file_miss W subject_path url folder_name display_name
                st st' _ Hc Hrun) as Hcase. simpl in Hcase.
  rewrite Hresp, Hhtml in Hcase. fold rel_path full_path in Hcase.
  rewrite Hw, Hdone, Hh in Hcase. simpl in Hcase.
  assert (forall st0 v,
             history st0 = HDict (<[url := v]> m) ->
             get_file W subject_path url folder_name display_name st0
             = (Ok (Some v), st0)) as Hagain.
  { intros st0 v H0. eapply get_file_hit; [done|apply lookup_insert_eq]. }
  destruct (on_write W index_file); [done| |];
    destruct Hcase as [-> ->]; eexists; (split; [done|]); simpl.
  - split; [done|]. rewrite lookup_insert_ne by done. rewrite !lookup_insert_eq.
    split; [done|]. split; [done|]. by apply Hagain.
  - split; [done|]. rewrite lookup_insert_eq, lookup_insert_ne by done.
    split; [done|]. split; [done|]. by apply Hagain.
Qed.

(** X5: whatever happens, [get_file] never drops or changes an entry that
    the history already has, and it touches no key but the requested URL;
    a history that is not a dict is left as it is. *)
Theorem get_file_history_frame (st st' : State) (r : result (option jval)) :
  get_file W subject_path url folder_name display_name st = (r, st') ->
  history_le (history st) (history st')
  /\ forall m m' other,
       history st = HDict m -> history st' = HDict m' -> other <> url ->
       m' !! other = m !! other.
Proof.
  intros Hrun.
  assert (history st' = history st
          \/ exists m rel, history st = HDict m /\ m !! url = None
                           /\ history st' = HDict (<[url := JStr rel]> m))
    as Hcases.
  { destruct (history_contains (history st) url) as [[]|e] eqn:Hc.
    - left. revert Hrun. unfold_m. rewrite Hc.
      destruct (history_getitem (history st) url); by intros [= <- <-].
    - pose proof (get_file_miss W subject_path url folder_name display_name
                    st st' _ Hc Hrun) as Hcase. simpl in Hcase.
      destruct (remote W (target_url url)) as [resp|];
        [|left; by destruct Hcase as [_ ->]].
      destruct (Str.contains "text/html" (ctype_of resp));
        [left; by destruct Hcase as [_ ->]|].
      destruct (on_write W (path_join subject_path _));
        try (left; by destruct Hcase as [_ ->]).
      destruct (complete resp); [|left; by destruct Hcase as [_ ->]].
      destruct (history st) as [m|items|s|] eqn:Hh; simpl in Hcase;
        try (left; by destruct Hcase as [_ ->]).
      right. exists m, (path_join folder_name
                          (stored_filename (ctype_of resp) display_name)).
      split; [done|]. split; [by apply contains_false_dict|].
      destruct (on_write W index_file); by destruct Hcase as [_ ->].
    - left. revert Hrun. unfold_m. rewrite Hc. by intros [= <- <-]. }
  destruct Hcases as [Hsame|(m & rel & Hh & Hmiss & Hh')].
  - rewrite Hsame. split.
    + destruct (history st); simpl; eauto.
    + intros m m' other Hm Hm' _. congruence.
  - rewrite Hh, Hh'. split.
    + simpl. eexists. split; [done|]. by apply insert_subseteq.
    + intros m0 m0' other [= <-] [= <-] Hne. by apply lookup_insert_ne.
Qed.

(** X6: a fetch of a URL that is not in the history sends exactly one
    request, whatever the outcome: nothing is retried. *)
Theorem get_file_one_request (st st' : State) (r : result (option jval)) :
  history_contains (history st) url = Ok false ->
  get_file W subject_path url folder_name display_name st = (r, st') ->
  requests st' = (requests st ++ [ResourceGet (target_url url)])%list.
Proof.
  intros Hmiss Hrun.
  pose proof (get_file_miss W subject_path url folder_name display_name
                st st' _ Hmiss Hrun) as Hcase. simpl in Hcase.
  destruct (remote W (target_url url)) as [resp|]; [|by destruct Hcase as [_ ->]].
  destruct (Str.contains "text/html" (ctype_of resp));
    [by destruct Hcase as [_ ->]|].
  destruct (on_write W (path_join subject_path _));
    try by destruct Hcase as [_ ->].
  destruct (complete resp); [|by destruct Hcase as [_ ->]].
  destruct (history_setitem (history st) url _); [|by destruct Hcase as [_ ->]].
  destruct (on_write W index_file); by destruct Hcase as [_ ->].
Qed.


(** X29: with a history that is a JSON list or string (and does not contain
    the URL), a fetch writes the file and then fails to record it: the
    result is [None], the history stays as it was and nothing is saved, so
    the next fetch of the same URL downloads the file again. *)
Theorem get_file_without_a_dict (st : State) (resp : Response) :
  history_contains (history st) url = Ok false ->
  (forall m, history st <> HDict m) ->
  remote W (target_url url) = Some resp ->
  Str.contains "text/html" (ctype_of resp) = false ->
  complete resp = true ->
  let full_path :=
    path_join subject_path
      (path_join folder_name (stored_filename (ctype_of resp) display_name)) in
  on_write W full_path = Written ->
  let st' := log_download full_path
               (put_file full_path (Raw (body resp))
                  (with_requests st [ResourceGet (target_url url)])) in
  get_file W subject_path url folder_name display_name st = (Ok None, st')
  /\ exists st'',
       get_file W subject_path url folder_name display_name st' = (Ok None, st'')
       /\ downloads st'' = (downloads st ++ [full_path; full_path])%list.
Proof.
  intros Hmiss Hnd Hresp Hhtml Hdone full_path Hw st'.
  assert (forall st0, history st0 = history st ->
            get_file W subject_path url folder_name display_name st0
            = (Ok None, log_download full_path
                          (put_file full_path (Raw (body resp))
                             (with_requests st0 [ResourceGet (target_url url)]))))
    as Hany.
  { intros st0 H0.
    destruct (get_file W subject_path url folder_name display_name st0)
      as [r st1] eqn:Hrun.
    rewrite <- H0 in Hmiss.
    pose proof (get_file_miss W subject_path url folder_name display_name
                  st0 st1 _ Hmiss Hrun) as Hcase. simpl in Hcase.
    rewrite Hresp, Hhtml in Hcase. fold full_path in Hcase.
    rewrite Hw, Hdone, H0 in Hcase.
    destruct (history st) as [m|items|s|]; simpl in Hcase;
      [by destruct (Hnd m)|by destruct Hcase as [-> ->]..]. }
  split; [by apply Hany|].
  eexists. split; [by apply Hany|]. simpl. by rewrite <- app_assoc.
Qed.
End FetcherEdges.

(** ** What a run never undoes *)

Lemma history_le_refl (h : pyhistory) : history_le h h.
Proof. destruct h; simpl; eauto. Qed.

Lemma history_le_trans (h1 h2 h3 : pyhistory) :
  history_le h1 h2 -> history_le h2 h3 -> history_le h1 h3.
Proof.
  destruct h1 as [m1|items|s|]; simpl; try (by intros ->).
  intros (m2 & -> & H12). simpl. intros (m3 & -> & H23).
  exists m3. split; [done|by etrans].
Qed.

Lemma history_le_setitem (h h' : pyhistory) (url rel_path : string) :
  history_contains h url = Ok false ->
  history_setitem h url rel_path = Ok h' ->
  history_le h h'.
Proof.
  destruct h as [m|items|s|]; simpl; try done.
  intros Hc [= <-]. eexists. split; [done|].
  apply insert_subseteq. by apply contains_false_dict.
Qed.

Lemma extends_refl (st : State) : extends st st.
Proof. repeat split; try done. apply history_le_refl. Qed.

Lemma extends_trans (st1 st2 st3 : State) :
  extends st1 st2 -> extends st2 st3 -> extends st1 st3.
Proof.
  intros (Hh1 & Hf1 & Hr1 & Hd1 & He1) (Hh2 & Hf2 & Hr2 & Hd2 & He2).
  repeat split; try (by etrans). by eapply history_le_trans.
Qed.

Lemma extends_with_requests (st : State) (rs : list request) :
  extends st (with_requests st rs).
Proof.
  repeat split; simpl; try done; [apply history_le_refl|by apply prefix_app_r].
Qed.

Lemma extends_put_file (st : State) (path : string) (c : content) :
  extends st (put_file path c st).
Proof.
  repeat split; simpl; try done; [apply history_le_refl|apply dom_insert_subseteq].
Qed.

Lemma extends_log_download (st : State) (path : string) :
  extends st (log_download path st).
Proof.
  repeat split; simpl; try done; [apply history_le_refl|by apply prefix_app_r].
Qed.

Lemma extends_log_failure (st : State) (path : string) :
  extends st (log_failure path st).
Proof.
  repeat split; simpl; try done; [apply history_le_refl|by apply prefix_app_r].
Qed.

Lemma extends_set_history (st : State) (h : pyhistory) :
  history_le (history st) h -> extends st (set_history h st).
Proof. intros Hle. by repeat split. Qed.

Section Keeps.
Variable R : State -> State -> Prop.
Hypothesis R_refl : forall st, R st st.
Hypothesis R_trans : forall st1 st2 st3, R st1 st2 -> R st2 st3 -> R st1 st3.

Lemma keeps_ret {A : Type} (a : A) : keeps R (ret a).
Proof. intros st r st' [= <- <-]. apply R_refl. Qed.

Lemma keeps_raise {A : Type} (e : exn) : keeps R (@raise A e).
Proof. intros st r st' [= <- <-]. apply R_refl. Qed.

Lemma keeps_lift {A : Type} (r : result A) : keeps R (lift r).
Proof. intros st r' st' [= <- <-]. apply R_refl. Qed.

Lemma keeps_get_history : keeps R get_history.
Proof. intros st r st' [= <- <-]. apply R_refl. Qed.

Lemma keeps_bind {A B : Type} (m : M A) (k : A -> M B) :
  keeps R m -> (forall a, keeps R (k a)) -> keeps R (bind m k).
Proof.
  intros Hm Hk st r st'. unfold bind.
  destruct (m st) as [[a|e] st1] eqn:H1.
  - intros H2. eapply R_trans; [by eapply Hm|by eapply Hk].
  - intros [= <- <-]. by eapply Hm.
Qed.

Lemma keeps_fold_m {A B : Type} (f : B -> A -> M B) (l : list A) :
  (forall b x, keeps R (f b x)) -> forall b, keeps R (fold_m f l b).
Proof.
  intros Hf. induction l as [|x l IH]; intros b; simpl.
  - apply keeps_ret.
  - apply keeps_bind; [apply Hf|apply IH].
Qed.
End Keeps.


Lemma keeps_extends_write_file (W : World) (path : string) (c : content) :
  keeps extends (write_file W path c).
Proof.
  intros st res st'. unfold write_file.
  destruct (on_write W path); intros [= <- <-].
  - apply extends_put_file.
  - eapply extends_trans; [apply extends_put_file|apply extends_log_failure].
  - apply extends_log_failure.
Qed.

Lemma keeps_extends_get_file (W : World)
    (subject_path url folder_name display_name : string) :
  keeps extends (get_file W subject_path url folder_name display_name).
Proof.
  intros st r st' Hrun.
  destruct (history_contains (history st) url) as [[]|e] eqn:Hc.
  - revert Hrun. unfold_m. rewrite Hc.
    destruct (history_getitem (history st) url); intros [= <- <-];
      apply extends_refl.
  - pose proof (get_file_miss W subject_path url folder_name display_name
                  st st' _ Hc Hrun) as Hcase. simpl in Hcase.
    pose proof (extends_with_requests st [ResourceGet (target_url url)]) as Hsent.
    destruct (remote W (target_url url)) as [resp|];
      [|by destruct Hcase as [_ ->]].
    destruct (Str.contains "text/html" (ctype_of resp));
      [by destruct Hcase as [_ ->]|].
    destruct (on_write W (path_join subject_path _)).
    + destruct (complete resp).
      * destruct (history_setitem (history st) url _) as [h'|e] eqn:Hset.
        -- assert (extends st
                     (set_history h'
                        (log_download
                           (path_join subject_path
                              (path_join folder_name
                                 (stored_filename (ctype_of resp) display_name)))
                           (put_file
                              (path_join subject_path
                                 (path_join folder_name
                                    (stored_filename (ctype_of resp) display_name)))
                              (Raw (body resp))
                              (with_requests st [ResourceGet (target_url url)])))))
             as Hkept.
           { eapply extends_trans; [apply Hsent|].
             eapply extends_trans; [apply extends_put_file|].
             eapply extends_trans; [apply extends_log_download|].
             apply extends_set_history. simpl.
             by eapply history_le_setitem. }
           destruct (on_write W index_file); destruct Hcase as [_ ->].
           ++ eapply extends_trans; [apply Hkept|apply extends_put_file].
           ++ eapply extends_trans; [apply Hkept|].
              eapply extends_trans; [apply extends_put_file|apply extends_log_failure].
           ++ eapply extends_trans; [apply Hkept|apply extends_log_failure].
        -- destruct Hcase as [_ ->].
           eapply extends_trans; [apply Hsent|].
           eapply extends_trans; [apply extends_put_file|apply extends_log_download].
      * destruct Hcase as [_ ->].
        eapply extends_trans; [apply Hsent|].
        eapply extends_trans; [apply extends_put_file|apply extends_log_failure].
    + destruct Hcase as [_ ->].
      eapply extends_trans; [apply Hsent|].
      eapply extends_trans; [apply extends_put_file|apply extends_log_failure].
    + destruct Hcase as [_ ->].
      eapply extends_trans; [apply Hsent|apply extends_log_failure].
  - revert Hrun. unfold_m. rewrite Hc. intros [= <- <-]. apply extends_refl.
Qed.

Lemma keeps_extends_sync_module (W : World) (subject_dir folder_name : string)
    (cm_map : gmap string CourseModule) (b : list string) (id : string) :
  keeps extends (sync_module W subject_dir folder_name cm_map b id).
Proof.
  unfold sync_module.
  destruct (_ !! id) as [item|]; [|apply keeps_ret, extends_refl].
  destruct (String.eqb _ _); [|apply keeps_ret, extends_refl].
  destruct (cm_url item) as [url|]; [|apply keeps_raise, extends_refl].
  apply keeps_bind; [apply extends_trans|apply keeps_get_history, extends_refl|].
  intros h.
  apply keeps_bind; [apply extends_trans|apply keeps_lift, extends_refl|].
  intros _.
  apply keeps_bind; [apply extends_trans|apply keeps_extends_get_file|].
  intros local_rel. destruct (truthy_value local_rel).
  - apply keeps_bind; [apply extends_trans|apply keeps_lift, extends_refl|].
    intros shown. apply keeps_ret, extends_refl.
  - apply keeps_ret, extends_refl.
Qed.

Lemma keeps_extends_sync_section (W : World) (subject_dir : string)
    (cm_map : gmap string CourseModule) (b : list string) (sec : Section) :
  keeps extends (sync_section W subject_dir cm_map b sec).
Proof.
  unfold sync_section.
  apply keeps_bind; [apply extends_trans|apply keeps_extends_write_file|].
  intros _. apply keeps_fold_m; [apply extends_refl|apply extends_trans|].
  intros b' id. apply keeps_extends_sync_module.
Qed.



Lemma main_unfold (W : World) (course_url subject_name : string)
    (disk : gmap string content) :
  main W course_url subject_name disk
  = run W course_url subject_name
      {| history := loaded W disk; fs := disk; requests := []; downloads := [];
         failures := [] |}.
Proof.
  unfold main, downloader_init, bind.
  by rewrite load_history_loaded.
Qed.

Lemma loaded_initial (W : World) (disk : gmap string content) (h : pyhistory) :
  fst (_load_history W (initial_state disk)) = Ok h -> loaded W disk = h.
Proof. rewrite load_history_loaded. simpl. by intros [= ->]. Qed.



(** ** Two runs in a row *)

Lemma ext_refl (W : World) (m : gmap string jval) : ext W m m.
Proof.
  split; [done|]. intros url Hnone [p Hsome]. congruence.
Qed.

Lemma ext_trans (W : World) (m1 m2 m3 : gmap string jval) :
  ext W m1 m2 -> ext W m2 m3 -> ext W m1 m3.
Proof.
  intros [Hsub12 Hnew12] [Hsub23 Hnew23]. split; [by etrans|].
  intros url Hnone Hsome.
  destruct (m2 !! url) as [p|] eqn:H2.
  - apply Hnew12; [done|]. by rewrite H2.
  - by apply Hnew23.
Qed.

Lemma ext_insert (W : World) (m : gmap string jval) (url : string) (v : jval) :
  m !! url = None -> no_file W url = false -> ext W m (<[url := v]> m).
Proof.
  intros Hmiss Hyes. split; [by apply insert_subseteq|].
  intros url' Hnone Hsome.
  destruct (decide (url = url')) as [<-|Hne]; [done|].
  rewrite lookup_insert_ne in Hsome by done.
  destruct Hsome as [p Hp]. congruence.
Qed.

Lemma grows_refl (W : World) (m : gmap string jval) (st : State) :
  history st = HDict m -> grows W m st st m.
Proof. intros Hh. split; [done|]. split; [apply ext_refl|done]. Qed.

Lemma grows_trans (W : World) (m1 m2 m3 : gmap string jval)
    (st1 st2 st3 : State) :
  grows W m1 st1 st2 m2 -> grows W m2 st2 st3 m3 -> grows W m1 st1 st3 m3.
Proof.
  intros (Hh12 & He12 & Hl12) (Hh23 & He23 & Hl23).
  split; [done|]. split; [by eapply ext_trans|auto].
Qed.

Lemma quiet_refl (W : World) (m : gmap string jval) (st : State) :
  quiet W m st st.
Proof.
  repeat split. exists []. split; [by rewrite app_nil_r|constructor].
Qed.

Lemma quiet_trans (W : World) (m : gmap string jval) (st1 st2 st3 : State) :
  quiet W m st1 st2 -> quiet W m st2 st3 -> quiet W m st1 st3.
Proof.
  intros (Hh12 & Hd12 & He12 & Hf12 & rs12 & Hr12 & Hall12)
         (Hh23 & Hd23 & He23 & Hf23 & rs23 & Hr23 & Hall23).
  repeat split; try congruence.
  exists (rs12 ++ rs23)%list. split.
  - by rewrite Hr23, Hr12, <- app_assoc.
  - by apply Forall_app.
Qed.

Lemma quiet_with_requests (W : World) (m : gmap string jval) (st : State)
    (rs : list request) :
  Forall (retry W m) rs -> quiet W m st (with_requests st rs).
Proof. intros Hrs. repeat split. by exists rs. Qed.

Lemma prefix_squeeze {A : Type} (l1 l2 l3 : list A) :
  l1 `prefix_of` l2 -> l2 `prefix_of` l3 -> l3 = l1 -> l2 = l1.
Proof.
  intros [k ->] [k' ->] Heq. rewrite <- app_assoc in Heq.
  assert ((k ++ k')%list = []) as Hnil.
  { apply (app_inv_head l1). by rewrite app_nil_r. }
  apply app_eq_nil in Hnil as [-> _]. by rewrite app_nil_r.
Qed.

Lemma snoc_not_same {A : Type} (l : list A) (x : A) : (l ++ [x])%list <> l.
Proof.
  intros Heq. assert ([x] = []) as Hnil; [|done].
  apply (app_inv_head l). by rewrite app_nil_r.
Qed.

(** The ways [get_file] can go when the history is a mapping. *)
Lemma get_file_cases (W : World) (subject_path url folder_name display_name : string)
    (st : State) (m : gmap string jval) :
  history st = HDict m ->
  (exists v, m !! url = Some v
     /\ get_file W subject_path url folder_name display_name st
        = (Ok (Some v), st))
  \/ (m !! url = None /\ no_file W url = true
      /\ get_file W subject_path url folder_name display_name st
         = (Ok None, with_requests st [ResourceGet (target_url url)]))
  \/ (m !! url = None /\ no_file W url = false
      /\ exists r st',
           get_file W subject_path url folder_name display_name st = (r, st')
           /\ ((exists rel_path,
                  r = Ok (Some (JStr rel_path))
                  /\ history st' = HDict (<[url := JStr rel_path]> m)
                  /\ fs st' !! index_file = Some (HistoryJson (history st'))
                  /\ failures st' = failures st)
               \/ (r = Ok None
                   /\ exists path, failures st' = (failures st ++ [path])%list))).
Proof.
  intros Hh. destruct (m !! url) as [v|] eqn:Hm.
  { left. exists v. split; [done|]. by eapply get_file_hit. }
  right.
  assert (history_contains (history st) url = Ok false) as Hc.
  { rewrite Hh. by apply contains_false_dict. }
  destruct (get_file W subject_path url folder_name display_name st)
    as [r st'] eqn:Hrun.
  pose proof (get_file_miss W subject_path url folder_name display_name
                st st' _ Hc Hrun) as Hcase. simpl in Hcase.
  unfold no_file.
  destruct (remote W (target_url url)) as [resp|];
    [|left; by destruct Hcase as [-> ->]].
  destruct (Str.contains "text/html" (ctype_of resp));
    [left; by destruct Hcase as [-> ->]|].
  right. split; [done|]. split; [done|]. exists r, st'. split; [done|].
  destruct (on_write W (path_join subject_path _));
    try (right; destruct Hcase as [-> ->]; simpl; by eauto).
  destruct (complete resp);
    [|right; destruct Hcase as [-> ->]; simpl; by eauto].
  rewrite Hh in Hcase. simpl in Hcase.
  destruct (on_write W index_file);
    try (right; destruct Hcase as [-> ->]; simpl; by eauto).
  left. destruct Hcase as [-> ->]. simpl. eexists. split; [done|].
  split; [done|]. split; [apply lookup_insert_eq|done].
Qed.

(** The walk of a resource module, once its record is found. *)
Lemma sync_module_resource (W : World) (subject_dir folder_name : string)
    (cm_map : gmap string CourseModule) (readme : list string)
    (id url : string) (item : CourseModule) (st : State) (m : gmap string jval) :
  cm_map !! id = Some item ->
  String.eqb (cm_module item) "resource" = true ->
  cm_url item = Some url ->
  history st = HDict m ->
  sync_module W subject_dir folder_name cm_map readme id st
  = match get_file W subject_dir url folder_name (cm_name item) st with
    | (Ok local_rel, st1) =>
        if truthy_value local_rel then
          match replace_sep local_rel with
          | Ok shown =>
              (Ok (readme ++ [local_link shown (soup_text W (cm_name item))])%list,
               st1)
          | Raise e => (Raise e, st1)
          end
        else (Ok readme, st1)
    | (Raise e, st1) => (Raise e, st1)
    end.
Proof.
  intros Hitem Hkind Hurl Hh. unfold sync_module.
  rewrite Hitem, Hkind, Hurl.
  unfold bind, get_history, lift, ret. rewrite Hh. simpl.
  destruct (get_file W subject_dir url folder_name (cm_name item) st)
    as [[local_rel|e] st1]; [|done].
  destruct (truthy_value local_rel); [|done].
  by destruct (replace_sep local_rel).
Qed.

Section Walk.
Variable W : World.

(** *** Folding a step over a list, first run and repeated run *)

Section Folds.
Context {A : Type}.
Variable f : list string -> A -> M (list string).
Variable lines : gmap string jval -> A -> list string.
Variable settled : gmap string jval -> A -> Prop.

Lemma fold_first_run (l : list A) :
  first_run_step W f lines settled ->
  (forall b x, keeps extends (f b x)) ->
  forall readme st readme' st' m,
    history st = HDict m ->
    fold_m f l readme st = (Ok readme', st') ->
    failures st' = failures st ->
    exists m', grows W m st st' m'
      /\ forall mF, ext W m' mF ->
           readme' = (readme ++ concat (map (lines mF) l))%list
           /\ Forall (settled mF) l.
Proof.
  intros Hstep Hmono.
  induction l as [|x l IH]; intros readme st readme' st' m Hh; simpl.
  - unfold ret. intros [= <- <-] _. exists m. split; [by apply grows_refl|].
    intros mF _. by rewrite app_nil_r.
  - unfold bind at 1. destruct (f readme x st) as [[mid|e] st_mid] eqn:Hx; [|done].
    intros Hrest Hfail.
    assert (failures st_mid = failures st) as Hfail1.
    { assert (extends st st_mid) as (_ & _ & _ & _ & Hp1) by (by eapply Hmono).
      assert (extends st_mid st') as (_ & _ & _ & _ & Hp2).
      { eapply (keeps_fold_m extends extends_refl extends_trans f l Hmono).
        exact Hrest. }
      by eapply prefix_squeeze. }
    destruct (Hstep _ _ _ _ _ _ Hh Hx Hfail1) as (m1 & Hg1 & Hl1).
    destruct (IH _ _ _ _ m1 (proj1 Hg1) Hrest) as (m' & Hg2 & Hl2);
      [congruence|].
    exists m'. split; [by eapply grows_trans|].
    intros mF HF.
    destruct (Hl2 mF HF) as [-> Hs2].
    destruct (Hl1 mF) as [-> Hs1]; [eapply ext_trans; [apply Hg2|done]|].
    split; [by rewrite <- app_assoc|by constructor].
Qed.

Lemma fold_repeated_run (l : list A) :
  repeated_run_step W f lines settled ->
  forall readme st m,
    history st = HDict m ->
    Forall (settled m) l ->
    exists st',
      fold_m f l readme st
      = (Ok (readme ++ concat (map (lines m) l))%list, st')
      /\ quiet W m st st'.
Proof.
  intros Hstep. induction l as [|x l IH]; intros readme st m Hh Hall; simpl.
  - exists st. rewrite app_nil_r. split; [done|apply quiet_refl].
  - apply Forall_cons in Hall as [Hx Hl].
    destruct (Hstep readme x st m Hh Hx) as (st_mid & Hrun & Hq).
    assert (history st_mid = HDict m) as Hh' by (rewrite <- Hh; apply Hq).
    destruct (IH (readme ++ lines m x)%list st_mid m Hh' Hl)
      as (st' & Hrest & Hq').
    exists st'. split; [|by eapply quiet_trans].
    unfold bind at 1. rewrite Hrun, Hrest. by rewrite <- app_assoc.
Qed.
End Folds.

(** *** One module *)

Lemma sync_module_first_run (subject_dir folder_name : string)
    (cm_map : gmap string CourseModule) :
  first_run_step W (sync_module W subject_dir folder_name cm_map)
    (module_lines W cm_map) (module_settled W cm_map).
Proof.
  intros readme id st readme' st' m Hh.
  unfold module_lines, module_settled.
  destruct (cm_map !! id) as [item|] eqn:Hitem; cycle 1.
  { unfold sync_module. rewrite Hitem. unfold ret. intros [= <- <-] _.
    exists m. split; [by apply grows_refl|].
    intros mF _. by rewrite app_nil_r. }
  destruct (String.eqb (cm_module item) "resource") eqn:Hkind; cycle 1.
  { unfold sync_module. rewrite Hitem, Hkind. unfold ret. intros [= <- <-] _.
    exists m. split; [by apply grows_refl|]. done. }
  destruct (cm_url item) as [url|] eqn:Hurl; cycle 1.
  { unfold sync_module. by rewrite Hitem, Hkind, Hurl. }
  rewrite (sync_module_resource W subject_dir folder_name cm_map readme id url
             item st m Hitem Hkind Hurl Hh).
  destruct (get_file_cases W subject_dir url folder_name (cm_name item) st m Hh)
    as [(v & Hin & ->)
       | [(Hmiss & Hno & ->)
         | (Hmiss & Hyes & r & st1 & ->
            & [(rel & -> & Hh1 & Hidx & Hf1) | (-> & path & Hf1)])]].
  - destruct v as [s|[]]; simpl; [|done|].
    + destruct (String.eqb s EmptyString) eqn:Hs; simpl;
        intros [= <- <-] _; exists m; (split; [by apply grows_refl|]);
        intros mF [Hsub _]; rewrite (lookup_weaken _ _ _ _ Hin Hsub), Hs;
        rewrite ?app_nil_r; (split; [done|]); (split; [done|congruence]).
    + intros [= <- <-] _. exists m. split; [by apply grows_refl|].
      intros mF [Hsub _]. rewrite (lookup_weaken _ _ _ _ Hin Hsub).
      rewrite app_nil_r. split; [done|]. split; [done|congruence].
  - simpl. intros [= <- <-] _. exists m.
    split; [split; [done|]; split; [apply ext_refl|done]|].
    intros mF [_ Hnew].
    destruct (mF !! url) as [p|] eqn:HF.
    + rewrite Hnew in Hno; [done|done|by rewrite HF].
    + rewrite app_nil_r. done.
  - assert (grows W m st st1 (<[url := JStr rel]> m)) as Hg.
    { split; [done|]. split; [by apply ext_insert|].
      intros _. unfold loaded. by rewrite Hidx. }
    assert (<[url := JStr rel]> m !! url = Some (JStr rel)) as Hin
        by apply lookup_insert_eq.
    simpl. destruct (String.eqb rel EmptyString) eqn:Hs; simpl;
      intros [= <- <-] _; eexists; (split; [exact Hg|]);
      intros mF [Hsub _]; rewrite (lookup_weaken _ _ _ _ Hin Hsub), Hs;
      rewrite ?app_nil_r; (split; [done|]); (split; [done|congruence]).
  - simpl. intros [= <- <-] Hfail. rewrite Hf1 in Hfail.
    by apply snoc_not_same in Hfail.
Qed.

Lemma sync_module_repeated_run (subject_dir folder_name : string)
    (cm_map : gmap string CourseModule) :
  repeated_run_step W (sync_module W subject_dir folder_name cm_map)
    (module_lines W cm_map) (module_settled W cm_map).
Proof.
  intros readme id st m Hh.
  unfold module_lines, module_settled.
  destruct (cm_map !! id) as [item|] eqn:Hitem; cycle 1.
  { intros _. exists st. unfold sync_module. rewrite Hitem, app_nil_r.
    split; [done|apply quiet_refl]. }
  destruct (String.eqb (cm_module item) "resource") eqn:Hkind; cycle 1.
  { intros _. exists st. unfold sync_module. rewrite Hitem, Hkind.
    split; [done|apply quiet_refl]. }
  destruct (cm_url item) as [url|] eqn:Hurl; [|done].
  intros [Hval Hnone].
  rewrite (sync_module_resource W subject_dir folder_name cm_map readme id url
             item st m Hitem Hkind Hurl Hh).
  destruct (get_file_cases W subject_dir url folder_name (cm_name item) st m Hh)
    as [(v & Hin & ->) | [(Hmiss & Hno & ->) | (Hmiss & Hyes & _)]].
  - exists st. rewrite Hin. split; [|apply quiet_refl].
    destruct v as [s|[]]; simpl; [|congruence|by rewrite app_nil_r].
    destruct (String.eqb s EmptyString); simpl; by rewrite ?app_nil_r.
  - eexists. rewrite Hmiss. simpl. rewrite app_nil_r. split; [done|].
    apply quiet_with_requests. constructor; [|constructor].
    by exists url.
  - rewrite (Hnone Hmiss) in Hyes. done.
Qed.

(** *** One section, then the whole course *)

Lemma sync_section_first_run (subject_dir : string)
    (cm_map : gmap string CourseModule) :
  first_run_step W (sync_section W subject_dir cm_map)
    (section_lines W cm_map) (section_settled W subject_dir cm_map).
Proof.
  intros readme sec st readme' st' m Hh.
  unfold sync_section, section_lines, section_settled.
  unfold bind at 1. unfold write_file.
  destruct (on_write W (path_join _ "context.txt")) eqn:Hw; [|done..].
  intros Hrun Hfail.
  eapply (fold_first_run _ _ _ _ (sync_module_first_run _ _ _)) in Hrun
    as (m' & (Hh' & Hext & Hl) & Hlines);
    [|intros b x; apply keeps_extends_sync_module|exact Hh|exact Hfail].
  exists m'. split.
  - split; [done|]. split; [done|]. intros Hin. apply Hl. simpl.
    rewrite loaded_insert_other by apply context_path_not_index. done.
  - intros mF HF. destruct (Hlines mF HF) as [-> Hs]. split; [|done].
    by rewrite <- app_assoc.
Qed.

Lemma sync_section_repeated_run (subject_dir : string)
    (cm_map : gmap string CourseModule) :
  repeated_run_step W (sync_section W subject_dir cm_map)
    (section_lines W cm_map) (section_settled W subject_dir cm_map).
Proof.
  intros readme sec st m Hh [Hw Hset].
  unfold sync_section, section_lines in *.
  unfold bind at 1. unfold write_file. rewrite Hw.
  match goal with |- context [fold_m _ _ _ ?s] => set (st_w := s) end.
  destruct (fold_repeated_run _ _ _ (sec_cmlist sec)
              (sync_module_repeated_run subject_dir
                 (_clean_name (raw_name_of sec)) cm_map)
              (readme ++ [nl +:+ "## " +:+ raw_name_of sec])%list st_w m Hh Hset)
    as (st' & Hrun & Hq).
  exists st'. split.
  - rewrite Hrun. simpl. by rewrite <- app_assoc.
  - eapply quiet_trans; [|apply Hq].
    repeat split; simpl.
    + apply lookup_insert_ne, context_path_not_index.
    + exists []. split; [by rewrite app_nil_r|constructor].
Qed.

Lemma sync_first_run (subject_dir course_title course_url : string)
    (state : CourseState) (st st' : State) (readme : list string)
    (m : gmap string jval) :
  history st = HDict m ->
  sync W subject_dir course_title course_url state st = (Ok readme, st') ->
  failures st' = failures st ->
  exists m', grows W m st st' m'
    /\ forall mF, ext W m' mF ->
         readme = (readme_header course_title course_url
                   ++ course_lines W mF state)%list
         /\ course_settled W subject_dir mF state.
Proof.
  unfold sync, course_lines, course_settled. intros Hh Hrun Hfail.
  eapply fold_first_run; [apply sync_section_first_run| |done..].
  intros b x. apply keeps_extends_sync_section.
Qed.

Lemma sync_repeated_run (subject_dir course_title course_url : string)
    (state : CourseState) (st : State) (m : gmap string jval) :
  history st = HDict m ->
  course_settled W subject_dir m state ->
  exists st',
    sync W subject_dir course_title course_url state st
    = (Ok (readme_header course_title course_url
           ++ course_lines W m state)%list, st')
    /\ quiet W m st st'.
Proof.
  unfold sync, course_lines, course_settled.
  apply fold_repeated_run, sync_section_repeated_run.
Qed.

(** What a run that ends normally without a failed write leaves, and what a
    run started from a state with the same history and disk then does. *)
Lemma run_then_run (course_url subject_name : string) (st st1 stB : State)
    (m : gmap string jval) :
  history st = HDict m ->
  run W course_url subject_name st = (Ok tt, st1) ->
  failures st1 = failures st ->
  loaded W (fs st) = history st ->
  history stB = history st1 ->
  fs stB = fs st1 ->
  loaded W (fs st1) = history st1
  /\ exists st2,
       run W course_url subject_name stB = (Ok tt, st2)
       /\ history st2 = history st1
       /\ fs st2 !! readme_path subject_name = fs st1 !! readme_path subject_name
       /\ fs st2 !! index_file = fs st1 !! index_file
       /\ downloads st2 = downloads stB
       /\ failures st2 = failures stB
       /\ exists rs, requests st2 = (requests stB ++ rs)%list
            /\ forall t, In (ResourceGet t) rs ->
                 exists url m1, t = target_url url
                                /\ history st1 = HDict m1
                                /\ m1 !! url = None
                                /\ no_file W url = true.
Proof.
  intros Hh Hrun Hfail Hloaded HhB HfB. revert Hrun.
  unfold run, bind, send, group1, raise, ret, write_file. simpl.
  destruct (course_page W course_url) as [text|]; [|done].
  destruct (Str.contains "Kirjaudu" text).
  { intros [= <-]. simpl in *. split; [done|].
    eexists. split; [done|]. simpl. rewrite HhB, HfB.
    repeat split. exists [PageGet course_url]. split; [done|].
    intros t [Ht|[]]. done. }
  destruct (re_search sesskey_at text) as [sesskey|]; [|done]. simpl.
  destruct (re_search course_id_at text) as [course_id|]; [|done]. simpl.
  destruct (soup_title W text) as [title|]; [|done]. simpl.
  destruct (course_state W course_id sesskey) as [state|]; [|done].
  match goal with |- context [sync _ _ _ _ _ ?s] => set (stA := s) end.
  destruct (sync W (subject_dir_of subject_name) _ course_url state stA)
    as [[readme|e] stA'] eqn:HA; [|done].
  destruct (on_write W (readme_path subject_name)) eqn:Hw; [|done..].
  intros [= <-]. simpl in *.
  apply (sync_first_run _ _ _ _ _ _ _ m) in HA
    as (m' & (Hh' & Hext & Hl) & Hlines); [|done|done].
  assert (loaded W (fs stA') = history stA') as Hl' by (by apply Hl).
  destruct (Hlines m' (ext_refl _ _)) as [-> Hset].
  split; [by rewrite loaded_insert_other by apply readme_path_not_index|].
  match goal with |- context [sync _ _ _ _ _ ?s] => set (stB1 := s) end.
  destruct (sync_repeated_run (subject_dir_of subject_name)
              (Str.remove_all " | TUNI Moodle" title) course_url state stB1 m')
    as (stB' & HB & HhB' & HdB' & HeB' & HfB' & rs & HrB' & Hretry).
  { subst stB1. simpl. by rewrite HhB. }
  { done. }
  rewrite HB. subst stB1. simpl in *.
  eexists. split; [done|]. simpl.
  rewrite HhB', HhB. split; [done|].
  rewrite !lookup_insert_eq. split; [done|].
  rewrite !lookup_insert_ne by (apply readme_path_not_index).
  rewrite HfB', HfB. simpl.
  rewrite lookup_insert_ne by (apply readme_path_not_index).
  split; [done|]. split; [done|]. split; [done|].
  exists ([PageGet course_url; StatePost course_id sesskey] ++ rs)%list.
  split; [by rewrite HrB', <- !app_assoc|].
  intros t [Ht|[Ht|Hin]]; [done|done|].
  rewrite Forall_forall in Hretry.
  destruct (Hretry (ResourceGet t)) as (url & [= ->] & Hnone & Hno);
    [by apply list_elem_of_In|].
  by exists url, m'.
Qed.
End Walk.

(** C1, as the code has it.  Suppose the history file is missing, unreadable
    or holds a JSON object, the first run ends normally, and no write it
    attempted failed.  Then a second run against the same remote state, on
    the disk the first run left and with every path answering a write as it
    did before, ends normally with the history of the first run and writes
    the same README; it writes no resource file, none of its writes fails,
    and it leaves the history file alone; the only resource requests it
    sends are for URLs that are not in the history and whose fetch yields no
    file (an HTML page, or a request that fails). *)
Theorem second_sync_repeats_first
    (W : World) (course_url subject_name : string)
    (disk : gmap string content) (m : gmap string jval) (st1 : State) :
  fst (_load_history W (initial_state disk)) = Ok (HDict m) ->
  main W course_url subject_name disk = (Ok tt, st1) ->
  failures st1 = [] ->
  exists st2,
    main W course_url subject_name (fs st1) = (Ok tt, st2)
    /\ history st2 = history st1
    /\ fs st2 !! readme_path subject_name = fs st1 !! readme_path subject_name
    /\ fs st2 !! index_file = fs st1 !! index_file
    /\ downloads st2 = []
    /\ failures st2 = []
    /\ forall t, In (ResourceGet t) (requests st2) ->
         exists url m1, t = target_url url
                        /\ history st1 = HDict m1
                        /\ m1 !! url = None
                        /\ no_file W url = true.
Proof.
  intros Hload. apply loaded_initial in Hload.
  rewrite !main_unfold.
  set (st0 := {| history := loaded W disk; fs := disk; requests := [];
                 downloads := []; failures := [] |}).
  intros Hrun Hfail.
  destruct (run_then_run W course_url subject_name st0 st1 st1 m Hload Hrun)
    as [Hloaded _]; [done..|].
  destruct (run_then_run W course_url subject_name st0 st1
              {| history := loaded W (fs st1); fs := fs st1;
                 requests := []; downloads := []; failures := [] |}
              m Hload Hrun)
    as [_ (st2 & Hrun2 & Hh & Hreadme & Hindex & Hd & He & rs & Hrs & Hretry)];
    [done..|].
  exists st2. repeat (split; [done|]).
  intros t Hin. apply Hretry. by rewrite Hrs in Hin.
Qed.

Lemma second_sync_repeats_first_witness :
  let W := demo_world healthy_disk tidy_course in
  let st1 := snd (main W "http://m/course" "Subj" ∅) in
  exists st2,
    main W "http://m/course" "Subj" (fs st1) = (Ok tt, st2)
    /\ history st2 = history st1
    /\ fs st2 !! readme_path "Subj" = fs st1 !! readme_path "Subj"
    /\ fs st2 !! index_file = fs st1 !! index_file
    /\ downloads st2 = []
    /\ failures st2 = []
    /\ forall t, In (ResourceGet t) (requests st2) ->
         exists url m1, t = target_url url
                        /\ history st1 = HDict m1
                        /\ m1 !! url = None
                        /\ no_file W url = true.
Proof.
  intros W st1.
  apply (second_sync_repeats_first W "http://m/course" "Subj" ∅ ∅ st1).
  - reflexivity.
  - vm_compute. reflexivity.
  - vm_compute. reflexivity.
Defined.

(** C1, as the claim states it, fails.  On [demo_course], with a disk that
    has directories, both runs end normally; the resource [u1] answers with
    an HTML page, so it is never cached and the second run requests it
    again; the module named [File] has an empty file name, its write fails
    in the first run and it gets no README line, while the module after it
    stores the same URL, so the second run finds it in the history and does
    list it: the two READMEs differ.  On [tidy_course], with a history file
    that holds the JSON list [[]], both runs end normally and no write
    fails, yet nothing can be recorded in a list, and the second run
    downloads every file again. *)
Lemma second_sync_not_all_cached :
  let W := demo_world healthy_disk demo_course in
  let first := main W "http://m/course" "Subj" ∅ in
  let second := main W "http://m/course" "Subj" (fs (snd first)) in
  let W' := demo_world healthy_disk tidy_course in
  let first' := main W' "http://m/course" "Subj" {[ index_file := Raw "[]" ]} in
  let second' := main W' "http://m/course" "Subj" (fs (snd first')) in
  (fst first = Ok tt
   /\ fst second = Ok tt
   /\ In (ResourceGet "http://m/u1?redirect=1") (requests (snd second))
   /\ fs (snd second) !! readme_path "Subj" <> fs (snd first) !! readme_path "Subj")
  /\ (fst first' = Ok tt
      /\ failures (snd first') = []
      /\ fst second' = Ok tt
      /\ history (snd second') = history (snd first')
      /\ downloads (snd second')
         = [ "Second Semester/subj/week_1/data";
             "Second Semester/subj/week_2/lecture_notes.pdf";
             "Second Semester/subj/week_2/data" ]).
Proof.
  cbv zeta. split.
  - split; [by vm_compute|]. split; [by vm_compute|].
    split.
    + vm_compute. tauto.
    + vm_compute. discriminate.
  - split; [by vm_compute|]. split; [by vm_compute|].
    split; [by vm_compute|]. split; by vm_compute.
Qed.

(** ** The course walk *)

Lemma fold_m_headings {A : Type} (f : list string -> A -> M (list string))
    (g : A -> list string) (l : list A) :
  (forall b x st b' st',
      f b x st = (Ok b', st') ->
      exists extra, b' = (b ++ extra)%list /\ List.filter is_heading extra = g x) ->
  forall b st b' st',
    fold_m f l b st = (Ok b', st') ->
    exists extra, b' = (b ++ extra)%list
                  /\ List.filter is_heading extra = concat (map g l).
Proof.
  intros Hstep. induction l as [|x l IH]; intros b st b' st'; simpl.
  - unfold ret. intros [= <- <-]. exists []. by rewrite app_nil_r.
  - unfold bind at 1. destruct (f b x st) as [[mid|e] st_mid] eqn:Hx; [|done].
    intros Hrest.
    destruct (Hstep _ _ _ _ _ Hx) as (e1 & -> & H1).
    destruct (IH _ _ _ _ Hrest) as (e2 & -> & H2).
    exists (e1 ++ e2)%list. split; [by rewrite app_assoc|].
    by rewrite List.filter_app, H1, H2.
Qed.

Lemma concat_map_nil {A : Type} (l : list A) :
  concat (map (fun _ : A => @nil string) l) = [].
Proof. induction l as [|x l IH]; simpl; [done|]. by rewrite IH. Qed.

Lemma concat_map_singleton {A B : Type} (h : A -> B) (l : list A) :
  concat (map (fun x => [h x]) l) = map h l.
Proof. induction l as [|x l IH]; simpl; [done|]. by rewrite IH. Qed.

(** A module step that ends normally only appends, and never a heading. *)
Lemma sync_module_appends (W : World) (subject_dir folder_name : string)
    (cm_map : gmap string CourseModule)
    (b : list string) (id : string) (st : State) (b' : list string) (st' : State) :
  sync_module W subject_dir folder_name cm_map b id st = (Ok b', st') ->
  exists extra, b' = (b ++ extra)%list /\ List.filter is_heading extra = [].
Proof.
  unfold sync_module. destruct (cm_map !! id) as [item|]; cycle 1.
  { unfold ret. intros [= <- <-]. exists []. by rewrite app_nil_r. }
  destruct (String.eqb (cm_module item) "resource"); cycle 1.
  { unfold ret. intros [= <- <-]. eexists. split; [done|]. reflexivity. }
  destruct (cm_url item) as [url|]; [|done].
  unfold bind, get_history, lift, ret.
  destruct (history_contains (history st) url) as [present|e]; [|done].
  destruct (get_file W subject_dir url folder_name (cm_name item) st)
    as [[local_rel|e] st1]; [|done].
  destruct (truthy_value local_rel).
  - destruct (replace_sep local_rel) as [shown|e]; [|done].
    intros [= <- <-]. eexists. split; [done|]. reflexivity.
  - intros [= <- <-]. exists []. by rewrite app_nil_r.
Qed.

Lemma heading_is_heading (sec : Section) : is_heading (heading_of sec) = true.
Proof.
  unfold is_heading, heading_of. by destruct (raw_name_of sec).
Qed.

(** A section step that ends normally appends its heading, then what its
    modules append. *)
Lemma sync_section_appends (W : World) (subject_dir : string)
    (cm_map : gmap string CourseModule)
    (b : list string) (sec : Section) (st : State) (b' : list string) (st' : State) :
  sync_section W subject_dir cm_map b sec st = (Ok b', st') ->
  exists extra, b' = (b ++ extra)%list
                /\ List.filter is_heading extra = [heading_of sec].
Proof.
  unfold sync_section, bind at 1.
  destruct (write_file W _ _ st) as [[[]|e] st_w]; [|done].
  intros Hmods.
  apply (fold_m_headings _ (fun _ => [])) in Hmods as (extra & -> & Hextra);
    [|apply sync_module_appends].
  rewrite concat_map_nil in Hextra.
  exists (heading_of sec :: extra). split; [by rewrite <- app_assoc|].
  simpl. fold (heading_of sec). by rewrite heading_is_heading, Hextra.
Qed.

Lemma fold_m_appends {A : Type} (f : list string -> A -> M (list string))
    (l : list A) :
  (forall b x st b' st',
      f b x st = (Ok b', st') -> exists extra, b' = (b ++ extra)%list) ->
  forall b st b' st',
    fold_m f l b st = (Ok b', st') -> exists extra, b' = (b ++ extra)%list.
Proof.
  intros Happ. induction l as [|x l IH]; intros b st b' st'; simpl.
  - unfold ret. intros [= <- <-]. exists []. by rewrite app_nil_r.
  - unfold bind at 1. destruct (f b x st) as [[mid|e] st_mid] eqn:Hx; [|done].
    intros Hrest.
    destruct (Happ _ _ _ _ _ Hx) as (e1 & ->).
    destruct (IH _ _ _ _ Hrest) as (e2 & ->).
    exists (e1 ++ e2)%list. by rewrite app_assoc.
Qed.

(** If the step at [x0] leaves [line] in the list and every step only
    appends, a fold over a list that has [x0] leaves [line] in the list. *)
Lemma fold_m_member {A : Type} (f : list string -> A -> M (list string))
    (x0 : A) (line : string) (l : list A) :
  (forall b x st b' st',
      f b x st = (Ok b', st') -> exists extra, b' = (b ++ extra)%list) ->
  (forall b st b' st', f b x0 st = (Ok b', st') -> In line b') ->
  In x0 l ->
  forall b st b' st', fold_m f l b st = (Ok b', st') -> In line b'.
Proof.
  intros Happ Hx. induction l as [|x l IH]; intros Hin b st b' st'; simpl.
  - done.
  - unfold bind at 1. destruct (f b x st) as [[mid|e] st_mid] eqn:Hstep; [|done].
    intros Hrest. destruct Hin as [->|Hin]; [|by eapply IH].
    apply Hx in Hstep.
    apply (fold_m_appends f l Happ) in Hrest as (extra & ->).
    apply in_or_app. by left.
Qed.

(** The step of the walk at a module that is not a resource and has no
    [url] key. *)
Lemma sync_module_without_url
    (W : World) (subject_dir folder_name : string)
    (cm_map : gmap string CourseModule) (readme_content : list string)
    (id : string) (item : CourseModule) (st : State) :
  cm_map !! id = Some item ->
  cm_module item <> "resource" ->
  cm_url item = None ->
  sync_module W subject_dir folder_name cm_map readme_content id st
  = (Ok (readme_content ++ ["* [" +:+ soup_text W (cm_name item) +:+ "](#)"])%list, st).
Proof.
  intros Hitem Hkind Hurl. unfold sync_module. rewrite Hitem.
  destruct (String.eqb_spec (cm_module item) "resource") as [Heq|_]; [done|].
  by rewrite Hurl.
Qed.

(** C10: a module that is listed in a section, is not a resource and has no
    [url] key gets a link entry with the placeholder target [#].  Its step
    of the walk never fails and touches nothing else; whenever the walk ends
    normally the entry is in [readme_content]; and whenever [run] ends
    normally the README on the disk is the join of a list of entries that
    has it. *)
Theorem sync_lists_module_without_url
    (W : World) (course_url subject_name text sesskey course_id : string)
    (state : CourseState) (sec : Section) (id : string) (item : CourseModule) :
  In sec (section state) ->
  In id (sec_cmlist sec) ->
  build_cm_map (cm state) !! id = Some item ->
  cm_module item <> "resource" ->
  cm_url item = None ->
  let line := "* [" +:+ soup_text W (cm_name item) +:+ "](#)" in
  (forall subject_dir folder_name readme st,
     sync_module W subject_dir folder_name (build_cm_map (cm state)) readme id st
     = (Ok (readme ++ [line])%list, st))
  /\ (forall subject_dir course_title st readme st',
        sync W subject_dir course_title course_url state st = (Ok readme, st') ->
        In line readme)
  /\ (forall st st',
        course_page W course_url = Some text ->
        Str.contains "Kirjaudu" text = false ->
        re_search sesskey_at text = Some sesskey ->
        re_search course_id_at text = Some course_id ->
        course_state W course_id sesskey = Some state ->
        run W course_url subject_name st = (Ok tt, st') ->
        exists readme,
          fs st' !! readme_path subject_name = Some (Raw (Str.join_lines readme))
          /\ In line readme).
Proof.
  intros Hsec Hid Hitem Hkind Hurl line.
  assert (forall subject_dir folder_name readme st,
            sync_module W subject_dir folder_name (build_cm_map (cm state))
              readme id st
            = (Ok (readme ++ [line])%list, st)) as Hstep.
  { intros. by apply sync_module_without_url. }
  assert (forall subject_dir course_title st readme st',
            sync W subject_dir course_title course_url state st = (Ok readme, st') ->
            In line readme) as Hwalk.
  { intros subject_dir course_title st readme st'. unfold sync.
    apply (fold_m_member _ sec line); [| |done].
    - intros b x st0 b' st0' Hx.
      apply sync_section_appends in Hx as (extra & -> & _). eauto.
    - intros b st0 b' st0'. unfold sync_section, bind at 1.
      destruct (write_file W _ _ st0) as [[[]|e] st_w]; [|done].
      apply (fold_m_member _ id line); [| |done].
      + intros b0 x st1 b1 st1' Hx.
        apply sync_module_appends in Hx as (extra & -> & _). eauto.
      + intros b0 st1 b1 st1'. rewrite Hstep. intros [= <- <-].
        apply in_or_app. right. by left. }
  split; [done|]. split; [done|].
  intros st st' Hpage Hmark Hkey Hcid Hstate.
  unfold run, bind, send, group1, raise, ret. simpl.
  rewrite Hpage, Hmark, Hkey, Hcid. simpl.
  destruct (soup_title W text) as [title|]; [|done]. simpl. rewrite Hstate.
  match goal with |- context [sync _ _ _ _ _ ?s] => set (stA := s) end.
  destruct (sync W (subject_dir_of subject_name) _ course_url state stA)
    as [[readme|e] stA'] eqn:HA; [|done].
  unfold write_file.
  destruct (on_write W (readme_path subject_name)); [|done..].
  intros [= <-]. exists readme. simpl. split; [apply lookup_insert_eq|].
  by eapply Hwalk.
Qed.

Lemma sync_lists_module_without_url_witness :
  let W := demo_world healthy_disk tidy_course in
  let line := "* [forum](#)" in
  (forall subject_dir folder_name readme st,
     sync_module W subject_dir folder_name (build_cm_map (cm tidy_course))
       readme "4" st
     = (Ok (readme ++ [line])%list, st))
  /\ (forall subject_dir course_title st readme st',
        sync W subject_dir course_title "http://m/course" tidy_course st
        = (Ok readme, st') ->
        In line readme)
  /\ exists readme,
       fs (snd (run W "http://m/course" "Subj" (initial_state ∅)))
         !! readme_path "Subj"
       = Some (Raw (Str.join_lines readme))
       /\ In line readme.
Proof.
  intros W line.
  destruct (sync_lists_module_without_url W "http://m/course" "Subj"
              demo_page "abc" "42" tidy_course
              {| sec_title := Some "Week 1"; sec_name := None;
                 sec_summary := Some "<p>Start</p>";
                 sec_cmlist := ["1"; "2"; "4"] |}
              "4"
              {| cm_id := "4"; cm_name := "forum"; cm_module := "forum";
                 cm_url := None |})
    as (Hstep & Hwalk & Hrun).
  - simpl. tauto.
  - simpl. tauto.
  - reflexivity.
  - discriminate.
  - reflexivity.
  - split; [exact Hstep|]. split; [exact Hwalk|].
    apply (Hrun (initial_state ∅)
             (snd (run W "http://m/course" "Subj" (initial_state ∅))));
      by vm_compute.
Defined.

(** X13: the name of a section is the title when the title is a non-empty
    string, else the name when the name is a non-empty string, else the
    word [General]; it is never empty. *)
Theorem raw_name_never_empty (sec : Section) :
  raw_name_of sec <> EmptyString
  /\ (forall t, sec_title sec = Some t -> t <> EmptyString -> raw_name_of sec = t)
  /\ (forall n, truthy (sec_title sec) = false ->
                sec_name sec = Some n -> n <> EmptyString -> raw_name_of sec = n)
  /\ (truthy (sec_title sec) = false -> truthy (sec_name sec) = false ->
      raw_name_of sec = "General").
Proof.
  unfold raw_name_of, truthy. repeat split.
  - destruct (sec_title sec) as [t|]; simpl.
    + destruct (String.eqb_spec t EmptyString) as [->|Ht]; simpl; [|done].
      destruct (sec_name sec) as [n|]; simpl; [|done].
      by destruct (String.eqb_spec n EmptyString).
    + destruct (sec_name sec) as [n|]; simpl; [|done].
      by destruct (String.eqb_spec n EmptyString).
  - intros t -> Ht. simpl. by destruct (String.eqb_spec t EmptyString).
  - intros n -> -> Hn. simpl. by destruct (String.eqb_spec n EmptyString).
  - by intros -> ->.
Qed.

(** ** The landing page *)

(** X20: when the landing page shows the login marker, the run stops at
    once and normally: one request was sent, nothing was written, and the
    history is the one loaded from the disk. *)
Theorem expired_session_stops_run
    (W : World) (course_url subject_name text : string)
    (disk : gmap string content) :
  course_page W course_url = Some text ->
  Str.contains "Kirjaudu" text = true ->
  main W course_url subject_name disk
  = (Ok tt, {| history := loaded W disk; fs := disk;
               requests := [PageGet course_url]; downloads := [];
               failures := [] |}).
Proof.
  intros Hpage Hmark. rewrite main_unfold.
  unfold run, bind, send, ret. simpl. by rewrite Hpage, Hmark.
Qed.

Lemma expired_session_stops_run_witness :
  main expired_world "http://m/course" "Subj" ∅
  = (Ok tt, {| history := loaded expired_world ∅; fs := ∅;
               requests := [PageGet "http://m/course"]; downloads := [];
               failures := [] |}).
Proof.
  apply (expired_session_stops_run expired_world "http://m/course" "Subj"
           "<title>Kirjaudu</title>" ∅); reflexivity.
Defined.

(** X21: a landing page without the login marker in which the session key,
    the course id or the title cannot be found makes the run raise before
    the course state is asked for and before anything is written. *)
Theorem page_without_keys_raises
    (W : World) (course_url subject_name text : string)
    (disk : gmap string content) :
  course_page W course_url = Some text ->
  Str.contains "Kirjaudu" text = false ->
  re_search sesskey_at text = None
  \/ re_search course_id_at text = None
  \/ soup_title W text = None ->
  main W course_url subject_name disk
  = (Raise AttributeError,
     {| history := loaded W disk; fs := disk;
        requests := [PageGet course_url]; downloads := []; failures := [] |}).
Proof.
  intros Hpage Hmark Hmissing. rewrite main_unfold.
  unfold run, bind, send, ret, group1, raise. simpl. rewrite Hpage, Hmark.
  destruct (re_search sesskey_at text);
    [|done].
  destruct (re_search course_id_at text);
    [|done].
  destruct (soup_title W text); [|done].
  by destruct Hmissing as [?|[?|?]].
Qed.

Lemma page_without_keys_raises_witness :
  main keyless_world "http://m/course" "Subj" ∅
  = (Raise AttributeError,
     {| history := loaded keyless_world ∅; fs := ∅;
        requests := [PageGet "http://m/course"]; downloads := [];
        failures := [] |}).
Proof.
  apply (page_without_keys_raises keyless_world "http://m/course" "Subj"
           "<html>no keys here</html>" ∅); [reflexivity..|].
  left. reflexivity.
Defined.

(** ** The entries of the README *)

(** X22: whenever the walk ends normally, the entries of [readme_content]
    that begin with a newline and [## ] are exactly the entries that open
    the sections of the course state, one per section and in the order of
    the section list; no entry added for a module and no entry of the
    header begins that way. *)
Theorem section_entries_follow_sections
    (W : World) (subject_dir course_title course_url : string)
    (state : CourseState) (st st' : State) (readme : list string) :
  sync W subject_dir course_title course_url state st = (Ok readme, st') ->
  List.filter is_heading readme = map heading_of (section state).
Proof.
  unfold sync. intros Hrun.
  apply (fold_m_headings _ (fun sec => [heading_of sec])) in Hrun
    as (extra & -> & Hextra).
  - rewrite List.filter_app, Hextra, concat_map_singleton.
    by destruct course_title.
  - intros b sec st0 b' st0'. apply sync_section_appends.
Qed.

Lemma section_entries_follow_sections_witness :
  List.filter is_heading
    (match fst (sync (demo_world healthy_disk tidy_course) "Second Semester/subj"
                  "Course" "http://m/course" tidy_course (initial_state ∅)) with
     | Ok readme => readme
     | Raise _ => []
     end)
  = map heading_of (section tidy_course).
Proof.
  apply (section_entries_follow_sections (demo_world healthy_disk tidy_course)
           "Second Semester/subj" "Course" "http://m/course" tidy_course
           (initial_state ∅)
           (snd (sync (demo_world healthy_disk tidy_course) "Second Semester/subj"
                   "Course" "http://m/course" tidy_course (initial_state ∅)))).
  by vm_compute.
Defined.

(** ** A run in which no write fails *)

(** X24: when the history is a mapping, the walk ends normally and no write
    failed during it, the README entries after the header are the ones the
    final history dictates: under each section heading, a resource is listed
    under the path the history holds for its URL, a resource without an
    entry is not listed, and every other module is listed with its URL. *)
Theorem readme_matches_history
    (W : World) (subject_dir course_title course_url : string)
    (state : CourseState) (st st' : State) (readme : list string)
    (m : gmap string jval) :
  history st = HDict m ->
  sync W subject_dir course_title course_url state st = (Ok readme, st') ->
  failures st' = failures st ->
  exists m', history st' = HDict m'
    /\ readme = (readme_header course_title course_url
                 ++ course_lines W m' state)%list.
Proof.
  intros Hh Hrun Hfail.
  destruct (sync_first_run W _ _ _ _ _ _ _ m Hh Hrun Hfail)
    as (m' & (Hh' & _) & Hlines).
  exists m'. split; [done|].
  by destruct (Hlines m' (ext_refl _ _)).
Qed.

Lemma readme_matches_history_witness :
  let W := demo_world healthy_disk tidy_course in
  let result := sync W "Second Semester/subj" "Course" "http://m/course"
                  tidy_course (initial_state ∅) in
  exists m', history (snd result) = HDict m'
    /\ fst result = Ok (readme_header "Course" "http://m/course"
                        ++ course_lines W m' tidy_course)%list.
Proof.
  intros W result.
  destruct result as [[readme|e] st'] eqn:Hrun.
  - destruct (readme_matches_history W "Second Semester/subj" "Course"
                "http://m/course" tidy_course (initial_state ∅) st' readme ∅
                eq_refl Hrun) as (m' & Hh & ->).
    + subst result. by vm_compute in Hrun; injection Hrun as _ <-.
    + exists m'. split; [exact Hh|reflexivity].
  - subst result. by vm_compute in Hrun.
Defined.

(** X25: when the history file is missing, unreadable or holds a JSON
    object, the run ends normally and no write failed during it, the history
    file on the disk loads back as exactly the history the run ended with. *)
Theorem run_leaves_disk_in_step
    (W : World) (course_url subject_name : string)
    (disk : gmap string content) (m : gmap string jval) (st1 : State) :
  fst (_load_history W (initial_state disk)) = Ok (HDict m) ->
  main W course_url subject_name disk = (Ok tt, st1) ->
  failures st1 = [] ->
  _load_history W st1 = (Ok (history st1), st1).
Proof.
  intros Hload. apply loaded_initial in Hload.
  rewrite main_unfold.
  set (st0 := {| history := loaded W disk; fs := disk; requests := [];
                 downloads := []; failures := [] |}).
  intros Hrun Hfail.
  destruct (run_then_run W course_url subject_name st0 st1 st1 m Hload Hrun)
    as [Hloaded _]; [done..|].
  by rewrite load_history_loaded, Hloaded.
Qed.

Lemma run_leaves_disk_in_step_witness :
  let W := demo_world healthy_disk tidy_course in
  let st1 := snd (main W "http://m/course" "Subj" ∅) in
  _load_history W st1 = (Ok (history st1), st1).
Proof.
  intros W st1.
  apply (run_leaves_disk_in_step W "http://m/course" "Subj" ∅ ∅ st1).
  - reflexivity.
  - by vm_compute.
  - by vm_compute.
Defined.

(** ** Witnesses for the fetcher's edge cases *)

Lemma get_file_raises_without_dict_witness :
  exists e,
    get_file (demo_world healthy_disk demo_course) "Second Semester/subj"
      "http://m/u2" "s" "notes"
      (set_history (HList [JStr "http://m/u2"]) (initial_state ∅))
    = (Raise e, set_history (HList [JStr "http://m/u2"]) (initial_state ∅)).
Proof.
  apply (get_file_raises_without_dict (demo_world healthy_disk demo_course)
           "Second Semester/subj" "http://m/u2" "s" "notes").
  right. split; [reflexivity|]. intros m. discriminate.
Defined.

Lemma get_file_request_fails_witness :
  get_file (demo_world healthy_disk demo_course) "Second Semester/subj"
    "http://m/gone" "s" "gone" (initial_state ∅)
  = (Ok None, with_requests (initial_state ∅)
                [ResourceGet (target_url "http://m/gone")]).
Proof.
  apply (get_file_request_fails (demo_world healthy_disk demo_course)
           "Second Semester/subj" "http://m/gone" "s" "gone" (initial_state ∅));
    reflexivity.
Defined.

Lemma get_file_write_fails_witness :
  exists st',
    get_file (demo_world full_disk demo_course) "Second Semester/subj"
      "http://m/u3" "s" "Lecture Notes File" (initial_state ∅) = (Ok None, st')
    /\ history st' = HDict ∅
    /\ downloads st' = []
    /\ failures st' = ["Second Semester/subj/s/lecture_notes.pdf"]
    /\ fs st' = <[ "Second Semester/subj/s/lecture_notes.pdf" := Raw "%P" ]> ∅.
Proof.
  apply (get_file_write_fails (demo_world full_disk demo_course)
           "Second Semester/subj" "http://m/u3" "s" "Lecture Notes File"
           (initial_state ∅)
           {| content_type := Some "application/pdf"; body := "%PDF";
              complete := true |}); [reflexivity..|].
  left. discriminate.
Defined.

Lemma get_file_save_fails_witness :
  exists st',
    get_file (demo_world torn_index demo_course) "Second Semester/subj"
      "http://m/u3" "s" "Lecture Notes File" (initial_state ∅) = (Ok None, st')
    /\ history st' = HDict (<[ "http://m/u3" := JStr "s/lecture_notes.pdf" ]> ∅)
    /\ fs st' !! "Second Semester/subj/s/lecture_notes.pdf" = Some (Raw "%PDF")
    /\ fs st' !! index_file = Some (Raw EmptyString)
    /\ get_file (demo_world torn_index demo_course) "Second Semester/subj"
         "http://m/u3" "s" "Lecture Notes File" st'
       = (Ok (Some (JStr "s/lecture_notes.pdf")), st').
Proof.
  apply (get_file_save_fails (demo_world torn_index demo_course)
           "Second Semester/subj" "http://m/u3" "s" "Lecture Notes File"
           (initial_state ∅) ∅
           {| content_type := Some "application/pdf"; body := "%PDF";
              complete := true |}); [reflexivity..|].
  discriminate.
Defined.

Lemma get_file_history_frame_witness :
  let st' := snd (get_file (demo_world healthy_disk demo_course)
                    "Second Semester/subj" "http://m/u3" "s"
                    "Lecture Notes File" demo_cached_state) in
  history_le (history demo_cached_state) (history st')
  /\ forall m m' other,
       history demo_cached_state = HDict m -> history st' = HDict m' ->
       other <> "http://m/u3" ->
       m' !! other = m !! other.
Proof.
  intros st'.
  apply (get_file_history_frame (demo_world healthy_disk demo_course)
           "Second Semester/subj" "http://m/u3" "s" "Lecture Notes File"
           demo_cached_state st' (Ok (Some (JStr "s/lecture_notes.pdf")))).
  reflexivity.
Defined.

Lemma get_file_one_request_witness :
  requests (snd (get_file (demo_world healthy_disk demo_course)
                   "Second Semester/subj" "http://m/u4" "s" "archive"
                   (initial_state ∅)))
  = [ResourceGet (target_url "http://m/u4")].
Proof.
  apply (get_file_one_request (demo_world healthy_disk demo_course)
           "Second Semester/subj" "http://m/u4" "s" "archive" (initial_state ∅)
           _ (Ok None)); reflexivity.
Defined.


Lemma get_file_without_a_dict_witness :
  let W := demo_world healthy_disk demo_course in
  let st := set_history (HList []) (initial_state ∅) in
  let st' := log_download "Second Semester/subj/s/lecture_notes.pdf"
               (put_file "Second Semester/subj/s/lecture_notes.pdf" (Raw "%PDF")
                  (with_requests st [ResourceGet (target_url "http://m/u3")])) in
  get_file W "Second Semester/subj" "http://m/u3" "s" "Lecture Notes File" st
  = (Ok None, st')
  /\ exists st'',
       get_file W "Second Semester/subj" "http://m/u3" "s" "Lecture Notes File" st'
       = (Ok None, st'')
       /\ downloads st''
          = [ "Second Semester/subj/s/lecture_notes.pdf";
              "Second Semester/subj/s/lecture_notes.pdf" ].
Proof.
  intros W st st'.
  apply (get_file_without_a_dict W "Second Semester/subj" "http://m/u3" "s"
           "Lecture Notes File" st
           {| content_type := Some "application/pdf"; body := "%PDF";
              complete := true |}); try reflexivity.
  intros m. discriminate.
Defined.
